(** * Consultation lifecycle of the ecosus backend

    A shallow embedding of the consultation model (models/Consultation.js)
    and of the consultation controller (controllers/consultationController.js):
    the status transition table, the status history, the owner and status
    guards of update and delete, and the admin views (urgent list, stats).

    Conventions.
    - An ObjectId is the string its [toString()] gives, 24 hexadecimal
      digits; the samples use short names in their place.  Mongoose casts an
      id before it looks it up, and a string that is no ObjectId fails the
      cast: the lookups below are for ids that pass it.  A Date is the
      integer of its [getTime()].  A string is the bytes of its UTF-8
      encoding.
    - A JavaScript call either returns or throws: [Completion].
    - The collection is a finite map from [_id] to the stored document.  A
      Mongoose document in memory is a copy of the stored fields together with
      the changes not yet saved ([Document]); [save] sends those changes only
      ([$set] of a modified path, [$push] of pushed array elements), as
      Mongoose does.
    - [select] and [populate] shape what is sent back but not which
      consultations are returned nor what is stored; they are left out.
      Whether [sendEmail] returns or throws is an input of the handlers that
      call it outside a swallowing [try].  Mongoose's bookkeeping paths
      ([__v], [updatedAt]) are left out too, and the store is taken to be
      available. *)

From stdpp Require Import gmap strings pretty list sorting.

Open Scope string_scope.
Open Scope list_scope.
Open Scope Z_scope.

(** ** JavaScript completions *)

(** What can be thrown or handed to [next].  The class of
    utils/errorResponse.js is not among the sources: an [ErrorResponse] is
    kept as the two arguments the handlers build it from, the message and
    the HTTP status code. *)
Inductive Exception :=
  | Error (message : string)
  | TypeError (message : string)
  | ValidationError (paths : list string)
  | ErrorResponse (message : string) (statusCode : nat).

Inductive Completion (A : Type) :=
  | Return (a : A)
  | Throw (e : Exception).
Arguments Return {A} a.
Arguments Throw {A} e.

(** ** The schema *)

Definition ObjectId := string.
Definition Date := Z.

Definition serviceEnum : list string :=
  ["residential"; "commercial"; "industrial"; "renovation";
   "interior-design"; "project-management"; "sustainability"].

Definition statusEnum : list string :=
  ["pending"; "confirmed"; "completed"; "cancelled"].

Record StatusHistoryEntry := {
  entry_status : string;
  changedBy : ObjectId;
  reason : string;
  changedAt : Date
}.

Record Consultation := {
  _id : ObjectId;
  user : ObjectId;
  service : string;
  projectType : string;
  description : string;
  location : string;
  preferredDate : Date;
  status : string;
  statusHistory : list StatusHistoryEntry;
  isUrgent : bool;
  createdAt : Date
}.

Global Instance StatusHistoryEntry_eq_dec : EqDecision StatusHistoryEntry.
Proof. solve_decision. Defined.

Global Instance Consultation_eq_dec : EqDecision Consultation.
Proof. solve_decision. Defined.

Definition with_status (s : string) (c : Consultation) : Consultation :=
  {| _id := _id c; user := user c; service := service c;
     projectType := projectType c; description := description c;
     location := location c; preferredDate := preferredDate c;
     status := s; statusHistory := statusHistory c;
     isUrgent := isUrgent c; createdAt := createdAt c |}.

Definition with_statusHistory (h : list StatusHistoryEntry) (c : Consultation)
  : Consultation :=
  {| _id := _id c; user := user c; service := service c;
     projectType := projectType c; description := description c;
     location := location c; preferredDate := preferredDate c;
     status := status c; statusHistory := h;
     isUrgent := isUrgent c; createdAt := createdAt c |}.

Definition with_isUrgent (b : bool) (c : Consultation) : Consultation :=
  {| _id := _id c; user := user c; service := service c;
     projectType := projectType c; description := description c;
     location := location c; preferredDate := preferredDate c;
     status := status c; statusHistory := statusHistory c;
     isUrgent := b; createdAt := createdAt c |}.

(** ** Documents in memory and the collection *)

(** A change made to a document and not yet saved. *)
Inductive Atomic :=
  | SetStatus (s : string)
  | SetIsUrgent (b : bool)
  | PushStatusHistory (e : StatusHistoryEntry).

Definition applyAtomic (c : Consultation) (a : Atomic) : Consultation :=
  match a with
  | SetStatus s => with_status s c
  | SetIsUrgent b => with_isUrgent b c
  | PushStatusHistory e => with_statusHistory (statusHistory c ++ [e]) c
  end.

Record Document := {
  fields : Consultation;
  unsaved : list Atomic
}.

Abbreviation Collection := (gmap ObjectId Consultation).

(** [this.status = s]: the path is marked modified only when the value
    changes. *)
Definition set_status (s : string) (this : Document) : Document :=
  if bool_decide (status (fields this) = s) then this
  else {| fields := with_status s (fields this);
          unsaved := unsaved this ++ [SetStatus s] |}.

(** [this.isUrgent = b] *)
Definition set_isUrgent (b : bool) (this : Document) : Document :=
  if bool_decide (isUrgent (fields this) = b) then this
  else {| fields := with_isUrgent b (fields this);
          unsaved := unsaved this ++ [SetIsUrgent b] |}.

(** [this.statusHistory.push(e)] *)
Definition push_statusHistory (e : StatusHistoryEntry) (this : Document)
  : Document :=
  {| fields := with_statusHistory (statusHistory (fields this) ++ [e])
                 (fields this);
     unsaved := unsaved this ++ [PushStatusHistory e] |}.

(** [await this.save()]: the unsaved changes are applied to the stored
    document with this [_id], in one update.  The document is taken to be
    stored, as it is when it has just been loaded: when the update matches no
    document Mongoose's [save] is rejected, which is not modelled, and the
    properties of a single [save] below carry the hypothesis that the
    document was loaded from the collection. *)
Definition save (this : Document) (db : Collection) : Document * Collection :=
  ({| fields := fields this; unsaved := [] |},
   alter (λ stored, foldl applyAtomic stored (unsaved this))
         (_id (fields this)) db).

(** [Consultation.findById(id)], for an id that casts to an ObjectId. *)
Definition findById (id : ObjectId) (db : Collection) : option Document :=
  (λ c, {| fields := c; unsaved := [] |}) <$> db !! id.

(** ** Status transitions (models/Consultation.js) *)

Definition validTransitions : gmap string (list string) :=
  <["pending" := ["confirmed"; "cancelled"]]>
  (<["confirmed" := ["completed"; "cancelled"]]>
  (<["completed" := ["cancelled"]]>
  (<["cancelled" := []]> ∅))).

(** The names every object literal inherits from [Object.prototype]. *)
Definition ObjectPrototype : list string :=
  ["constructor"; "__defineGetter__"; "__defineSetter__"; "hasOwnProperty";
   "__lookupGetter__"; "__lookupSetter__"; "isPrototypeOf";
   "propertyIsEnumerable"; "toString"; "valueOf"; "__proto__";
   "toLocaleString"].

(** What [obj[key]] evaluates to for an object literal whose own properties
    are arrays of strings: an own property, else a member inherited from
    [Object.prototype] (a function, or the prototype object itself for
    [__proto__]; none of them has an [includes] member), else [undefined]. *)
Inductive PropertyValue :=
  | ArrayValue (xs : list string)
  | InheritedValue
  | UndefinedValue.

Definition getProperty (obj : gmap string (list string)) (key : string)
  : PropertyValue :=
  match obj !! key with
  | Some xs => ArrayValue xs
  | None =>
      if bool_decide (key ∈ ObjectPrototype) then InheritedValue
      else UndefinedValue
  end.

(** [xs.includes(x)] *)
Definition includes (x : string) (xs : list string) : bool :=
  bool_decide (x ∈ xs).

(** [validTransitions[this.status]?.includes(newStatus) || false]:
    [?.] stops at [undefined] only; on an inherited member the call of its
    missing [includes] throws a TypeError. *)
Definition canChangeStatus (this : Document) (newStatus : string)
  : Completion bool :=
  match getProperty validTransitions (status (fields this)) with
  | ArrayValue xs => Return (includes newStatus xs || false)
  | UndefinedValue => Return false
  | InheritedValue =>
      Throw (TypeError
        "validTransitions[this.status]?.includes is not a function")
  end.

(** [updateStatus(newStatus, userId, reason = "")]; [now] is [new Date()].
    The result is the completion, the document afterwards and the
    collection afterwards. *)
Definition updateStatus (this : Document) (newStatus : string)
    (userId : ObjectId) (reason : option string) (now : Date)
    (db : Collection)
  : Completion (string * string) * Document * Collection :=
  let reason := default "" reason in
  match canChangeStatus this newStatus with
  | Throw e => (Throw e, this, db)
  | Return false =>
      (Throw (Error ("Invalid status transition from "
                       +:+ status (fields this) +:+ " to " +:+ newStatus)),
       this, db)
  | Return true =>
      let oldStatus := status (fields this) in
      let this := set_status newStatus this in
      let this :=
        push_statusHistory
          {| entry_status := newStatus; changedBy := userId;
             reason := reason; changedAt := now |} this in
      let '(this, db) := save this db in
      (Return (oldStatus, newStatus), this, db)
  end.

(** ** Queries (Mongoose [find], [sort], [limit]) *)

(** A query object over the paths the code filters on; an absent key puts no
    constraint. *)
Record Filter := {
  filter_user : option ObjectId;
  filter_status : option string;
  filter_isUrgent : option bool
}.

Definition anyDocument : Filter :=
  {| filter_user := None; filter_status := None; filter_isUrgent := None |}.

Definition matches (q : Filter) (c : Consultation) : bool :=
  from_option (λ u, bool_decide (user c = u)) true (filter_user q)
  && from_option (λ s, bool_decide (status c = s)) true (filter_status q)
  && from_option (λ b, bool_decide (isUrgent c = b)) true (filter_isUrgent q).

(** [a || b] on two object literals: an object is truthy, so the value is
    [a] and [b] is never looked at. *)
Definition js_or (a b : Filter) : Filter := a.

Definition documents (db : Collection) : list Consultation :=
  (map_to_list db).*2.

Definition find (q : Filter) (db : Collection) : list Consultation :=
  filter (λ c, matches q c = true) (documents db).

(** The order of [sort("-createdAt")]: newest first. *)
Definition newestFirst (a b : Consultation) : Prop :=
  createdAt b ≤ createdAt a.

Global Instance newestFirst_dec : RelDecision newestFirst.
Proof. intros a b. unfold newestFirst. apply _. Defined.

Definition sortNewestFirst (l : list Consultation) : list Consultation :=
  merge_sort newestFirst l.

(** Statics of the model. *)
Definition static_getUserConsultations (userId : ObjectId) (db : Collection)
  : list Consultation :=
  sortNewestFirst
    (find {| filter_user := Some userId; filter_status := None;
             filter_isUrgent := None |} db).

Definition static_getPendingConsultations (db : Collection)
  : list Consultation :=
  sortNewestFirst
    (find {| filter_user := None; filter_status := Some "pending";
             filter_isUrgent := None |} db).

Definition static_getUrgentConsultations (db : Collection)
  : list Consultation :=
  sortNewestFirst
    (find {| filter_user := None; filter_status := Some "pending";
             filter_isUrgent := Some true |} db).

(** ** Requests and responses *)

Record AuthUser := {
  uid : ObjectId;
  role : string
}.

(** A JSON body made of plain keys for schema paths, and of the [reason]
    that the status route reads.  The handlers hand the raw [req.body] to
    Mongoose, which also honours update operators ([$set], [$rename], ...),
    dotted paths ([statusHistory.0.status]) and the keys [_id] and
    [createdAt]: such bodies are outside this record, and nothing below says
    what an update or a creation does with them.  [body_preferredDate] is
    the time of a value that casts to a Date. *)
Record Body := {
  body_user : option ObjectId;
  body_service : option string;
  body_projectType : option string;
  body_description : option string;
  body_location : option string;
  body_preferredDate : option Date;
  body_status : option string;
  body_statusHistory : option (list StatusHistoryEntry);
  body_isUrgent : option bool;
  body_reason : option string
}.

Definition emptyBody : Body :=
  {| body_user := None; body_service := None; body_projectType := None;
     body_description := None; body_location := None;
     body_preferredDate := None; body_status := None;
     body_statusHistory := None; body_isUrgent := None;
     body_reason := None |}.

Record Request := {
  params_id : ObjectId;
  req_user : AuthUser;
  body : Body
}.

(** What a handler does with the response: [res.status(code).json(data)],
    or [next(err)] (also for an exception caught by [asyncHandler]). *)
Inductive Response (A : Type) :=
  | Json (statusCode : nat) (data : A)
  | Next (e : Exception).
Arguments Json {A} statusCode data.
Arguments Next {A} e.

(** ** Schema validation *)

(** The white space and the line terminators of JavaScript, each as the
    bytes of its UTF-8 encoding: U+0009 to U+000D, U+0020, U+00A0, U+1680,
    U+2000 to U+200A, U+2028, U+2029, U+202F, U+205F, U+3000 and U+FEFF. *)
Definition whiteSpace : list (list nat) :=
  [ [9]; [10]; [11]; [12]; [13]; [32]; [194; 160]; [225; 154; 128];
    [226; 128; 128]; [226; 128; 129]; [226; 128; 130]; [226; 128; 131];
    [226; 128; 132]; [226; 128; 133]; [226; 128; 134]; [226; 128; 135];
    [226; 128; 136]; [226; 128; 137]; [226; 128; 138]; [226; 128; 168];
    [226; 128; 169]; [226; 128; 175]; [226; 129; 159]; [227; 128; 128];
    [239; 187; 191] ]%nat.

Fixpoint dropPrefix (w l : list nat) : option (list nat) :=
  match w, l with
  | [], _ => Some l
  | a :: w, b :: l => if decide (a = b) then dropPrefix w l else None
  | _ :: _, [] => None
  end.

(** [l] without the white space character it starts with, if it starts
    with one of [ws]. *)
Definition dropWhiteSpace (ws : list (list nat)) (l : list nat)
  : option (list nat) :=
  foldr (λ w rest, match dropPrefix w l with Some l' => Some l' | None => rest end)
    None ws.

Fixpoint ltrim (ws : list (list nat)) (fuel : nat) (l : list nat)
  : list nat :=
  match fuel with
  | O => l
  | S fuel =>
      match dropWhiteSpace ws l with
      | Some l' => ltrim ws fuel l'
      | None => l
      end
  end.

(** The [trim: true] setter, [String.prototype.trim]: the white space is
    taken off at both ends (at the end, by reading the bytes backwards). *)
Definition trim (s : string) : string :=
  let l := Ascii.nat_of_ascii <$> String.list_ascii_of_string s in
  let l := ltrim whiteSpace (length l) l in
  let l := reverse (ltrim (reverse <$> whiteSpace) (length l) (reverse l)) in
  String.string_of_list_ascii (Ascii.ascii_of_nat <$> l).

(** The [length] of a JavaScript string, in UTF-16 code units, read off the
    UTF-8 bytes: one unit for a character of one, two or three bytes, two
    units for a character of four bytes. *)
Definition codeUnits (byte : nat) : nat :=
  (if byte <? 128 then 1
   else if byte <? 192 then 0
   else if byte <? 240 then 1
   else 2)%nat.

Definition jsLength (s : string) : nat :=
  sum_list (codeUnits ∘ Ascii.nat_of_ascii <$> String.list_ascii_of_string s).

Definition enumValidator (path : string) (enum : list string) (v : string)
  : list string :=
  if includes v enum then [] else [path].

Definition requiredValidator (path : string) (v : string) : list string :=
  if bool_decide (v = "") then [path] else [].

(** [required] on a path that is not a string: the path has to be there. *)
Definition presentValidator {A} (path : string) (v : option A)
  : list string :=
  match v with Some _ => [] | None => [path] end.

(** [required], [minlength: 50], [maxlength: 1000] *)
Definition descriptionValidator (v : string) : list string :=
  if bool_decide (v = "") || (jsLength v <? 50)%nat
     || (1000 <? jsLength v)%nat
  then ["description"] else [].

(** The [enum] of the status of each entry; the failing path names the
    index of the entry. *)
Definition statusHistoryValidator (h : list StatusHistoryEntry)
  : list string :=
  mjoin (imap (λ i e,
                 enumValidator ("statusHistory." +:+ pretty i +:+ ".status")
                   statusEnum (entry_status e)) h).

(** The paths that fail validation in a whole document. *)
Definition validateDocument (c : Consultation) : list string :=
  enumValidator "service" serviceEnum (service c)
  ++ requiredValidator "projectType" (projectType c)
  ++ descriptionValidator (description c)
  ++ requiredValidator "location" (location c)
  ++ enumValidator "status" statusEnum (status c)
  ++ statusHistoryValidator (statusHistory c).

(** Update validators ([runValidators: true]) look at the paths the update
    sets. *)
Definition validateUpdate (b : Body) : list string :=
  from_option (enumValidator "service" serviceEnum) [] (body_service b)
  ++ from_option (λ v, requiredValidator "projectType" (trim v)) []
       (body_projectType b)
  ++ from_option descriptionValidator [] (body_description b)
  ++ from_option (λ v, requiredValidator "location" (trim v)) []
       (body_location b)
  ++ from_option (enumValidator "status" statusEnum) [] (body_status b)
  ++ from_option statusHistoryValidator [] (body_statusHistory b).

(** The document after [$set] of every path the body carries (a body of
    plain keys, see [Body]). *)
Definition applyBody (b : Body) (c : Consultation) : Consultation :=
  {| _id := _id c;
     user := default (user c) (body_user b);
     service := default (service c) (body_service b);
     projectType := default (projectType c) (trim <$> body_projectType b);
     description := default (description c) (body_description b);
     location := default (location c) (trim <$> body_location b);
     preferredDate := default (preferredDate c) (body_preferredDate b);
     status := default (status c) (body_status b);
     statusHistory := default (statusHistory c) (body_statusHistory b);
     isUrgent := default (isUrgent c) (body_isUrgent b);
     createdAt := createdAt c |}.

(** [Consultation.findByIdAndUpdate(id, body, {new: true, runValidators: true})]
    for a body of plain keys: Mongoose wraps them in one [$set]. *)
Definition findByIdAndUpdate (id : ObjectId) (b : Body) (db : Collection)
  : Completion (option Consultation) * Collection :=
  match validateUpdate b with
  | [] =>
      match db !! id with
      | Some c => (Return (Some (applyBody b c)), <[id := applyBody b c]> db)
      | None => (Return None, db)
      end
  | paths => (Throw (ValidationError paths), db)
  end.

(** [Consultation.findByIdAndDelete(id)] *)
Definition findByIdAndDelete (id : ObjectId) (db : Collection) : Collection :=
  delete id db.

(** [Consultation.create(data)] for data of plain keys (see [Body]; data
    that names its own [_id] or [createdAt] is outside the model): the absent
    paths get their defaults ([status: "pending"], [isUrgent: false], an
    empty history), [newId] is the generated [_id] and [now] the creation
    time; a required path that is absent fails validation. *)
Definition create (newId : ObjectId) (now : Date) (data : Body)
    (db : Collection) : Completion Consultation * Collection :=
  let c :=
    {| _id := newId;
       user := default "" (body_user data);
       service := default "" (body_service data);
       projectType := default "" (trim <$> body_projectType data);
       description := default "" (body_description data);
       location := default "" (trim <$> body_location data);
       preferredDate := default 0 (body_preferredDate data);
       status := default "pending" (body_status data);
       statusHistory := default [] (body_statusHistory data);
       isUrgent := default false (body_isUrgent data);
       createdAt := now |} in
  match presentValidator "user" (body_user data)
        ++ presentValidator "preferredDate" (body_preferredDate data)
        ++ validateDocument c with
  | [] => (Return c, <[newId := c]> db)
  | paths => (Throw (ValidationError paths), db)
  end.

(** ** The controller (controllers/consultationController.js) *)

Record StatsSummary := {
  total : nat;
  pending : nat;
  completed : nat;
  cancelled : nat;
  urgent : nat
}.

Definition noStats : StatsSummary :=
  {| total := 0; pending := 0; completed := 0; cancelled := 0; urgent := 0 |}.

(** [$cond: [test, 1, 0]] *)
Definition cond (test : bool) : nat := if test then 1%nat else 0%nat.

(** One document folded into the accumulators of the [$group] stage. *)
Definition groupStep (acc : StatsSummary) (c : Consultation) : StatsSummary :=
  {| total := total acc + 1;
     pending := pending acc + cond (bool_decide (status c = "pending"));
     completed := completed acc + cond (bool_decide (status c = "completed"));
     cancelled := cancelled acc + cond (bool_decide (status c = "cancelled"));
     urgent := urgent acc + cond (isUrgent c) |}.

(** [Consultation.aggregate([{ $group: { _id: null, ... } }])]: one group
    over the whole collection, and no group when it is empty. *)
Definition aggregate_group (db : Collection) : list StatsSummary :=
  match documents db with
  | [] => []
  | docs => [foldl groupStep noStats docs]
  end.

Definition getConsultationStats (db : Collection)
  : Response (StatsSummary * list Consultation) :=
  let stats := aggregate_group db in
  let recent := take 5 (sortNewestFirst (find anyDocument db)) in
  let result :=
    match stats with
    | stats0 :: _ => stats0
    | [] => noStats
    end in
  Json 200 (result, recent).

(** [{...req.body, user: req.user.id, name, email, phone}] for a body of
    plain keys: the owner is the authenticated user whatever the body says;
    [name], [email] and [phone] are no schema paths. *)
Definition consultationData (req : Request) : Body :=
  {| body_user := Some (uid (req_user req));
     body_service := body_service (body req);
     body_projectType := body_projectType (body req);
     body_description := body_description (body req);
     body_location := body_location (body req);
     body_preferredDate := body_preferredDate (body req);
     body_status := body_status (body req);
     body_statusHistory := body_statusHistory (body req);
     body_isUrgent := body_isUrgent (body req);
     body_reason := body_reason (body req) |}.

(** The mails of this handler are sent inside a [try] whose [catch] only
    logs. *)
Definition createConsultation (req : Request) (newId : ObjectId) (now : Date)
    (db : Collection) : Response Consultation * Collection :=
  match create newId now (consultationData req) db with
  | (Return consultation, db) => (Json 201 consultation, db)
  | (Throw e, db) => (Next e, db)
  end.

Definition isOwner (req : Request) (consultation : Document) : bool :=
  bool_decide (user (fields consultation) = uid (req_user req)).

Definition isAdmin (req : Request) : bool :=
  bool_decide (role (req_user req) = "admin").

Definition updateConsultation (req : Request) (db : Collection)
  : Response (option Consultation) * Collection :=
  match findById (params_id req) db with
  | None => (Next (ErrorResponse "Consultation not found" 404), db)
  | Some consultation =>
      if negb (isOwner req consultation) && negb (isAdmin req) then
        (Next (ErrorResponse "Not authorized to update this consultation" 401),
         db)
      else if isOwner req consultation
              && negb (bool_decide (status (fields consultation) = "pending"))
      then
        (Next (ErrorResponse
                 "Cannot update consultation after it has been processed" 400),
         db)
      else
        match findByIdAndUpdate (params_id req) (body req) db with
        | (Return consultation, db) => (Json 200 consultation, db)
        | (Throw e, db) => (Next e, db)
        end
  end.

Definition deleteConsultation (req : Request) (db : Collection)
  : Response unit * Collection :=
  match findById (params_id req) db with
  | None => (Next (ErrorResponse "Consultation not found" 404), db)
  | Some consultation =>
      if negb (isOwner req consultation) && negb (isAdmin req) then
        (Next (ErrorResponse "Not authorized to delete this consultation" 401),
         db)
      else if isOwner req consultation
              && negb (bool_decide (status (fields consultation) = "pending"))
      then
        (Next (ErrorResponse
                 "Cannot delete consultation after it has been processed" 400),
         db)
      else (Json 200 (), findByIdAndDelete (params_id req) db)
  end.

Definition getUserConsultations (req : Request) (db : Collection)
  : Response (list Consultation) :=
  Json 200 (static_getUserConsultations (uid (req_user req)) db).

Definition getPendingConsultations (db : Collection)
  : Response (list Consultation) :=
  Json 200
    (sortNewestFirst
       (find {| filter_user := None; filter_status := Some "pending";
                filter_isUrgent := None |} db)).

(** [Consultation.find({ isUrgent: true } || { status: "urgent" })] *)
Definition getUrgentConsultations (db : Collection)
  : Response (list Consultation) :=
  Json 200
    (sortNewestFirst
       (find (js_or
                {| filter_user := None; filter_status := None;
                   filter_isUrgent := Some true |}
                {| filter_user := None; filter_status := Some "urgent";
                   filter_isUrgent := None |}) db)).

Definition exceptionMessage (e : Exception) : string :=
  match e with
  | Error m | TypeError m | ErrorResponse m _ => m
  | ValidationError _ => "Consultation validation failed"
  end.

(** The route's validator has made [status] one of the four names; a body
    without it would ask for [undefined], which no array includes and which
    prints as the string below.  The mail is sent inside the [try]. *)
Definition updateConsultationStatus (req : Request) (now : Date)
    (sendEmail : Completion unit) (db : Collection)
  : Response (Consultation * (string * string)) * Collection :=
  let status := default "undefined" (body_status (body req)) in
  let reason := body_reason (body req) in
  match findById (params_id req) db with
  | None => (Next (ErrorResponse "Consultation not found" 404), db)
  | Some consultation =>
      match updateStatus consultation status (uid (req_user req)) reason now
              db with
      | (Return statusChange, consultation, db) =>
          match sendEmail with
          | Return _ => (Json 200 (fields consultation, statusChange), db)
          | Throw error => (Next (ErrorResponse (exceptionMessage error) 400), db)
          end
      | (Throw error, _, db) =>
          (Next (ErrorResponse (exceptionMessage error) 400), db)
      end
  end.

Definition getStatusHistory (req : Request) (db : Collection)
  : Response (list StatusHistoryEntry) :=
  match findById (params_id req) db with
  | None => Next (ErrorResponse "Consultation not found" 404)
  | Some consultation => Json 200 (statusHistory (fields consultation))
  end.

Definition markAsUrgent (req : Request) (db : Collection)
  : Response Consultation * Collection :=
  match findById (params_id req) db with
  | None => (Next (ErrorResponse "Consultation not found" 404), db)
  | Some consultation =>
      let consultation := set_isUrgent true consultation in
      let '(consultation, db) := save consultation db in
      (Json 200 (fields consultation), db)
  end.

(** [followUpDate] is no schema path: it is not stored.  The handler calls
    [sendEmail] with the keys [email], [template] and [data] where the
    function reads [to] and [html], so the transport is given no recipient;
    what the call then does is the input [sendEmail], and the stored status
    is the same whatever it does. *)
Definition markAsResolved (req : Request) (sendEmail : Completion unit)
    (db : Collection) : Response Consultation * Collection :=
  match findById (params_id req) db with
  | None => (Next (ErrorResponse "Consultation not found" 404), db)
  | Some consultation =>
      let consultation := set_status "completed" consultation in
      let '(consultation, db) := save consultation db in
      match sendEmail with
      | Return _ => (Json 200 (fields consultation), db)
      | Throw e => (Next e, db)
      end
  end.

(** ** Two status requests in flight

    A status request is served in two turns of the event loop: the handler
    awaits [findById], and when it resumes it calls [updateStatus] on the
    copy it was given (the check and the assignments run without a break, and
    the update that [save] sends is applied by the database in one piece).
    Nothing in the handler or in the model orders the turns of two requests,
    so a schedule is any interleaving of them. *)

Inductive Client := ClientA | ClientB.

Global Instance Client_eq_dec : EqDecision Client.
Proof. solve_decision. Defined.

Record StatusCall := {
  call_id : ObjectId;
  call_status : string;
  call_userId : ObjectId;
  call_reason : option string;
  call_now : Date
}.

Record Progress := {
  loaded : option Document;
  outcome : option (Completion (string * string))
}.

Definition notStarted : Progress := {| loaded := None; outcome := None |}.


(** One turn of a request. *)
Definition turn (call : StatusCall) (p : Progress) (db : Collection)
  : Progress * Collection :=
  match outcome p, loaded p with
  | Some _, _ => (p, db)
  | None, None =>
      match findById (call_id call) db with
      | Some consultation =>
          ({| loaded := Some consultation; outcome := None |}, db)
      | None =>
          ({| loaded := None;
              outcome :=
                Some (Throw (ErrorResponse "Consultation not found" 404)) |},
           db)
      end
  | None, Some consultation =>
      let '(result, consultation, db) :=
        updateStatus consultation (call_status call) (call_userId call)
          (call_reason call) (call_now call) db in
      ({| loaded := Some consultation; outcome := Some result |}, db)
  end.











(** ** The transition table of the specification *)

Inductive Transition : string → string → Prop :=
  | pending_confirmed : Transition "pending" "confirmed"
  | pending_cancelled : Transition "pending" "cancelled"
  | confirmed_completed : Transition "confirmed" "completed"
  | confirmed_cancelled : Transition "confirmed" "cancelled"
  | completed_cancelled : Transition "completed" "cancelled".

(** ** What an operation keeps of the stored consultations *)

(** The entry that [updateStatus] pushes. *)
Definition newEntry (newStatus userId : string) (reason : option string)
    (now : Date) : StatusHistoryEntry :=
  {| entry_status := newStatus; changedBy := userId;
     reason := default "" reason; changedAt := now |}.

(** Every consultation stored before is still stored, and related by [R] to
    what it was. *)
Definition preserved (R : relation Consultation) (db db' : Collection)
  : Prop :=
  ∀ id c, db !! id = Some c → ∃ c', db' !! id = Some c' ∧ R c c'.

(** Append-only: the old history is an initial segment of the new one. *)
Definition historyKept (c c' : Consultation) : Prop :=
  statusHistory c `prefix_of` statusHistory c'.

Definition ownerKept (c c' : Consultation) : Prop := user c' = user c.

(** ** Sample data *)

Definition sampleDescription : string :=
  "Two storey timber frame extension with a green roof.".

Definition sample (id owner status : string) (urgent : bool) (t : Date)
  : Consultation :=
  {| _id := id; user := owner; service := "residential";
     projectType := "extension"; description := sampleDescription;
     location := "Leeds"; preferredDate := 1700000000000;
     status := status; statusHistory := []; isUrgent := urgent;
     createdAt := t |}.

Definition fresh (c : Consultation) : Document :=
  {| fields := c; unsaved := [] |}.

Definition admin1 : AuthUser := {| uid := "admin1"; role := "admin" |}.
Definition user1 : AuthUser := {| uid := "u1"; role := "user" |}.

(** A body that passes the validators and changes the location only. *)
Definition editBody : Body :=
  {| body_user := None; body_service := None; body_projectType := None;
     body_description := Some sampleDescription; body_location := Some "York";
     body_preferredDate := None; body_status := None;
     body_statusHistory := None; body_isUrgent := None;
     body_reason := None |}.

Definition pendingDb : Collection :=
  {[ "c1" := sample "c1" "u1" "pending" false 10 ]}.

(** A consultation that was cancelled through [updateStatus]. *)
Definition cancelledOnce : Consultation :=
  with_statusHistory
    [newEntry "cancelled" "admin1" (Some "withdrawn") 50]
    (sample "c1" "u1" "cancelled" false 10).

Definition cancelledDb : Collection := {[ "c1" := cancelledOnce ]}.

Definition resolveRequest : Request :=
  {| params_id := "c1"; req_user := admin1; body := emptyBody |}.

(** The owner of a pending consultation asks for a status in the body. *)
Definition statusInBody : Request :=
  {| params_id := "c1"; req_user := user1;
     body :=
       {| body_user := None; body_service := None; body_projectType := None;
          body_description := Some sampleDescription; body_location := None;
          body_preferredDate := None; body_status := Some "completed";
          body_statusHistory := None; body_isUrgent := None;
          body_reason := None |} |}.

(** An administrator sends an empty history in the body. *)
Definition historyInBody : Request :=
  {| params_id := "c1"; req_user := admin1;
     body :=
       {| body_user := None; body_service := None; body_projectType := None;
          body_description := Some sampleDescription; body_location := None;
          body_preferredDate := None; body_status := None;
          body_statusHistory := Some []; body_isUrgent := None;
          body_reason := None |} |}.

(** The owner of a pending consultation names another owner in the body. *)
Definition ownerInBody : Request :=
  {| params_id := "c1"; req_user := user1;
     body :=
       {| body_user := Some "u2"; body_service := None;
          body_projectType := None;
          body_description := Some sampleDescription; body_location := None;
          body_preferredDate := None; body_status := None;
          body_statusHistory := None; body_isUrgent := None;
          body_reason := None |} |}.

(** An administrator who asked for a consultation of their own. *)
Definition adminOwned : Consultation :=
  sample "c3" "admin1" "confirmed" false 30.

Definition adminOwnedDb : Collection := {[ "c3" := adminOwned ]}.

Definition adminOwnRequest : Request :=
  {| params_id := "c3"; req_user := admin1; body := editBody |}.

(** An urgent consultation that has been confirmed. *)
Definition urgentConfirmed : Consultation :=
  sample "c2" "u2" "confirmed" true 20.

Definition urgentDb : Collection :=
  <["c1" := sample "c1" "u1" "pending" false 10]>
    (<["c2" := urgentConfirmed]> ∅).

Definition createRequest : Request :=
  {| params_id := ""; req_user := user1;
     body :=
       {| body_user := Some "u2"; body_service := Some "residential";
          body_projectType := Some "extension";
          body_description := Some sampleDescription;
          body_location := Some "Leeds";
          body_preferredDate := Some 1700000000000; body_status := None;
          body_statusHistory := None; body_isUrgent := None;
          body_reason := None |} |}.

(** ** Reading one consultation, and the mail transport *)

Definition isHexDigit (a : Ascii.ascii) : bool :=
  let n := Ascii.nat_of_ascii a in
  ((48 <=? n) && (n <=? 57) || (65 <=? n) && (n <=? 70)
   || (97 <=? n) && (n <=? 102))%nat.

(** [id.match(/^[0-9a-fA-F]{24}$/)] *)
Definition isObjectIdFormat (id : string) : bool :=
  (String.length id =? 24)%nat
  && forallb isHexDigit (String.list_ascii_of_string id).

(** [getConsultation]; [users] are the ids of the stored users.
    [populate("user", ...)] puts the user document in place of the reference,
    or [null] when there is no such user, and the guard then reads the
    [_id] of [null].  What is sent on success is the stored consultation
    (with the name, email and phone of its owner filled in). *)
Definition getConsultation (req : Request) (users : gset ObjectId)
    (db : Collection) : Response Consultation :=
  if negb (isObjectIdFormat (params_id req)) then
    Next (ErrorResponse "Invalid consultation ID format" 400)
  else
    match findById (params_id req) db with
    | None => Next (ErrorResponse "Consultation not found" 404)
    | Some consultation =>
        if bool_decide (user (fields consultation) ∈ users) then
          if negb (isOwner req consultation) && negb (isAdmin req) then
            Next (ErrorResponse "Not authorized to access this consultation"
                    401)
          else Json 200 (fields consultation)
        else Next (TypeError "Cannot read properties of null (reading '_id')")
    end.

(** [sendEmail] of utils/sendEmail.js; [sendMail] is what the transport
    does.  Its failure is logged and replaced by one error. *)
Definition sendEmail (sendMail : Completion unit) : Completion unit :=
  match sendMail with
  | Return info => Return info
  | Throw _ => Throw (Error "Failed to send email")
  end.

(** ** Runs of status updates and what the collection satisfies *)

Record StatusRequest := {
  request_status : string;
  request_userId : ObjectId;
  request_reason : option string;
  request_now : Date
}.

(** [updateStatus] called on the same document for each request in turn;
    the completions are listed in the order of the calls. *)
Fixpoint updateStatusAll (this : Document) (requests : list StatusRequest)
    (db : Collection)
  : list (Completion (string * string)) * Document * Collection :=
  match requests with
  | [] => ([], this, db)
  | q :: requests =>
      let '(r, this, db) :=
        updateStatus this (request_status q) (request_userId q)
          (request_reason q) (request_now q) db in
      let '(rs, this, db) := updateStatusAll this requests db in
      (r :: rs, this, db)
  end.

Definition returned {A} (r : Completion A) : bool :=
  match r with Return _ => true | Throw _ => false end.

Definition accepted {A} (rs : list (Completion A)) : nat :=
  length (filter (λ r, returned r = true) rs).

(** The statuses [statuses] follow one another, from [from] on, by steps of
    the table. *)
Fixpoint chain (from : string) (statuses : list string) : Prop :=
  match statuses with
  | [] => True
  | s :: statuses => Transition from s ∧ chain s statuses
  end.

(** The history tells how the consultation came from "pending" to the status
    it has. *)
Definition trail (c : Consultation) : Prop :=
  chain "pending" (entry_status <$> statusHistory c)
  ∧ last ("pending" :: (entry_status <$> statusHistory c)) = Some (status c).

(** The guard of update and delete, as the handlers test it: the owner while
    the consultation is pending, or an administrator who is not the owner. *)
Definition mayWrite (req : Request) (c : Consultation) : Prop :=
  (user c = uid (req_user req) ∧ status c = "pending")
  ∨ (user c ≠ uid (req_user req) ∧ role (req_user req) = "admin").

(** Every document is stored under its own [_id]. *)
Definition wellKeyed (db : Collection) : Prop :=
  map_Forall (λ id c, _id c = id) db.

(** Every stored status, and the status of every entry of every stored
    history, is one of the four of the enum. *)
Definition statusesValid (db : Collection) : Prop :=
  map_Forall
    (λ _ c, status c ∈ statusEnum
            ∧ Forall (λ e, entry_status e ∈ statusEnum) (statusHistory c))
    db.

(** How many steps of the table can still be taken from a status. *)
Definition rank (s : string) : nat :=
  if decide (s = "pending") then 3
  else if decide (s = "confirmed") then 2
  else if decide (s = "completed") then 1
  else 0.

(** Creation dates in the order of [sort("-createdAt")]. *)
Definition newestFirstDates (l : list Date) : Prop :=
  Sorted (λ a b, b ≤ a) l.

(** More sample data. *)
Definition hexId : ObjectId := "507f1f77bcf86cd799439011".

Definition hexDb : Collection :=
  {[ hexId := sample hexId "u1" "confirmed" false 10 ]}.

Definition readRequest (who : AuthUser) : Request :=
  {| params_id := hexId; req_user := who; body := emptyBody |}.

Definition user2 : AuthUser := {| uid := "u2"; role := "user" |}.

(** A request for a well-formed id under which nothing is stored. *)
Definition absentRequest : Request :=
  {| params_id := "507f191e810c19729de860ea"; req_user := admin1;
     body := emptyBody |}.

(** The owner of the cancelled consultation asks to edit it. *)
Definition lateEdit : Request :=
  {| params_id := "c1"; req_user := user1; body := editBody |}.

Definition statusRequest (id status : string) : Request :=
  {| params_id := id; req_user := admin1;
     body :=
       {| body_user := None; body_service := None; body_projectType := None;
          body_description := None; body_location := None;
          body_preferredDate := None; body_status := Some status;
          body_statusHistory := None; body_isUrgent := None;
          body_reason := Some "site visit done" |} |}.

Definition lifecycle : list StatusRequest :=
  [ {| request_status := "confirmed"; request_userId := "admin1";
       request_reason := None; request_now := 20 |};
    {| request_status := "pending"; request_userId := "admin1";
       request_reason := None; request_now := 30 |};
    {| request_status := "completed"; request_userId := "admin1";
       request_reason := Some "done"; request_now := 40 |};
    {| request_status := "cancelled"; request_userId := "admin1";
       request_reason := None; request_now := 50 |};
    {| request_status := "confirmed"; request_userId := "admin1";
       request_reason := None; request_now := 60 |} ].

(** * Properties *)

(** ** The transition table *)

Lemma Transition_table from to :
  Transition from to ↔
  (from = "pending" ∧ (to = "confirmed" ∨ to = "cancelled"))
  ∨ (from = "confirmed" ∧ (to = "completed" ∨ to = "cancelled"))
  ∨ (from = "completed" ∧ to = "cancelled").
Proof.
  split.
  - destruct 1; intuition congruence.
  - intros [[-> [->| ->]]|[[-> [->| ->]]|[-> ->]]]; constructor.
Qed.

Lemma Transition_irrefl from to : Transition from to → from ≠ to.
Proof. destruct 1; congruence. Qed.

Lemma getProperty_validTransitions s :
  getProperty validTransitions s =
    if decide (s = "pending") then ArrayValue ["confirmed"; "cancelled"]
    else if decide (s = "confirmed") then ArrayValue ["completed"; "cancelled"]
    else if decide (s = "completed") then ArrayValue ["cancelled"]
    else if decide (s = "cancelled") then ArrayValue []
    else if bool_decide (s ∈ ObjectPrototype) then InheritedValue
    else UndefinedValue.
Proof.
  unfold getProperty, validTransitions.
  repeat case_decide; simplify_map_eq; reflexivity.
Qed.

Lemma includes_true x xs : includes x xs = true ↔ x ∈ xs.
Proof. apply bool_decide_eq_true. Qed.

Lemma statusEnum_not_inherited s : s ∈ statusEnum → s ∉ ObjectPrototype.
Proof.
  unfold statusEnum, ObjectPrototype.
  rewrite !elem_of_cons, !elem_of_nil. intuition congruence.
Qed.

Lemma Transition_from_enum from to : Transition from to → from ∈ statusEnum.
Proof.
  intros H. unfold statusEnum. rewrite !elem_of_cons.
  destruct H; intuition congruence.
Qed.

(** On every status that names no inherited member, [canChangeStatus]
    returns, and returns [true] exactly on the pairs of the table. *)
Lemma canChangeStatus_spec this to :
  status (fields this) ∉ ObjectPrototype →
  ∃ b, canChangeStatus this to = Return b
       ∧ (b = true ↔ Transition (status (fields this)) to).
Proof.
  intros Hp. unfold canChangeStatus. rewrite getProperty_validTransitions.
  repeat case_decide; try contradiction;
    (eexists; split; [reflexivity|]);
    rewrite Transition_table, ?orb_false_r, ?includes_true,
      ?elem_of_cons, ?elem_of_nil; intuition congruence.
Qed.

Lemma canChangeStatus_allowed this to :
  Transition (status (fields this)) to → canChangeStatus this to = Return true.
Proof.
  intros H.
  destruct (canChangeStatus_spec this to) as (b & -> & Hb).
  - by eapply statusEnum_not_inherited, Transition_from_enum.
  - f_equal. by apply Hb.
Qed.

Lemma canChangeStatus_denied this to :
  status (fields this) ∉ ObjectPrototype →
  ¬ Transition (status (fields this)) to →
  canChangeStatus this to = Return false.
Proof.
  intros Hp H.
  destruct (canChangeStatus_spec this to Hp) as (b & -> & Hb).
  f_equal. destruct b; [|done]. exfalso. by apply H, Hb.
Qed.

(** A status outside the enum that names no inherited member allows
    nothing. *)
Lemma canChangeStatus_unknown this to :
  status (fields this) ∉ statusEnum →
  status (fields this) ∉ ObjectPrototype →
  canChangeStatus this to = Return false.
Proof.
  intros He Hp. apply canChangeStatus_denied; [done|].
  intros H. by apply He, (Transition_from_enum _ to).
Qed.

(** A status that names an inherited member makes the check throw. *)
Lemma canChangeStatus_inherited this to :
  status (fields this) ∈ ObjectPrototype →
  canChangeStatus this to
  = Throw (TypeError
             "validTransitions[this.status]?.includes is not a function").
Proof.
  intros Hp. unfold canChangeStatus. rewrite getProperty_validTransitions.
  pose proof (statusEnum_not_inherited (status (fields this))) as He.
  unfold statusEnum in He. rewrite !elem_of_cons in He.
  repeat case_decide; try reflexivity; try contradiction;
    exfalso; apply He; auto.
Qed.

(** Claim C3, at a status outside the enum: with [status = "constructor"]
    the lookup in the table finds the member every object inherits, and the
    check throws a TypeError where the claim has it return [false]. *)
Theorem canChangeStatus_constructor_throws :
  ("constructor" ∉ statusEnum)
  ∧ canChangeStatus (fresh (sample "c1" "u1" "constructor" false 10))
      "confirmed"
    = Throw (TypeError
               "validTransitions[this.status]?.includes is not a function").
Proof.
  split.
  - unfold statusEnum. rewrite !elem_of_cons, elem_of_nil.
    intuition congruence.
  - vm_compute. reflexivity.
Qed.

(** On the four statuses of the enum the check is the table of the
    specification. *)
Lemma canChangeStatus_enum this to :
  status (fields this) ∈ statusEnum →
  (canChangeStatus this to = Return true
   ↔ Transition (status (fields this)) to).
Proof.
  intros He. split; [|apply canChangeStatus_allowed].
  intros H.
  destruct (canChangeStatus_spec this to) as (b & Hc & Hb);
    [by apply statusEnum_not_inherited|].
  apply Hb. congruence.
Qed.

(** ** [updateStatus] *)

Lemma updateStatus_allowed_eq this to userId reason now db :
  Transition (status (fields this)) to →
  updateStatus this to userId reason now db
  = (Return (status (fields this), to),
     {| fields := with_statusHistory
                    (statusHistory (fields this)
                       ++ [newEntry to userId reason now])
                    (with_status to (fields this));
        unsaved := [] |},
     alter (λ stored,
              foldl applyAtomic stored
                (unsaved this
                   ++ [SetStatus to;
                       PushStatusHistory (newEntry to userId reason now)]))
       (_id (fields this)) db).
Proof.
  intros H. unfold updateStatus. rewrite (canChangeStatus_allowed _ _ H).
  unfold set_status.
  rewrite bool_decide_eq_false_2 by by apply Transition_irrefl.
  cbn. by rewrite <- app_assoc.
Qed.

Lemma updateStatus_denied_eq this to userId reason now db :
  status (fields this) ∈ statusEnum →
  ¬ Transition (status (fields this)) to →
  updateStatus this to userId reason now db
  = (Throw (Error ("Invalid status transition from "
                     +:+ status (fields this) +:+ " to " +:+ to)),
     this, db).
Proof.
  intros He H. unfold updateStatus.
  rewrite canChangeStatus_denied; auto using statusEnum_not_inherited.
Qed.



(** Claim C2: on a pair outside the table, from a status of the enum,
    [updateStatus] throws the error whose message names the current and the
    requested status, and the consultation and the collection are what they
    were. *)
Theorem updateStatus_rejected (this : Document) (to actorId : string)
    (reason : option string) (now : Date) (db : Collection) :
  status (fields this) ∈ statusEnum →
  ¬ Transition (status (fields this)) to →
  updateStatus this to actorId reason now db
  = (Throw (Error ("Invalid status transition from "
                     +:+ status (fields this) +:+ " to " +:+ to)),
     this, db).
Proof. apply updateStatus_denied_eq. Qed.

Lemma updateStatus_rejected_witness :
  ("pending" ∈ statusEnum)
  ∧ ¬ Transition "pending" "completed"
  ∧ updateStatus (fresh (sample "c1" "u1" "pending" false 10)) "completed"
      "admin1" None 99 pendingDb
    = (Throw (Error "Invalid status transition from pending to completed"),
       fresh (sample "c1" "u1" "pending" false 10), pendingDb).
Proof.
  assert (He : "pending" ∈ statusEnum) by apply list_elem_of_here.
  assert (Hn : ¬ Transition "pending" "completed") by inversion 1.
  split; [exact He|]. split; [exact Hn|].
  exact (updateStatus_rejected (fresh (sample "c1" "u1" "pending" false 10))
           "completed" "admin1" None 99 pendingDb He Hn).
Defined.

(** ** Status changes that do not go through [updateStatus] *)

(** Claim C4, at two requests.  The table allows nothing from "cancelled",
    yet [markAsResolved] stores the status "completed" on a cancelled
    consultation; and the owner of a pending consultation who puts the status
    "completed" in the body of an update has it stored, though the table does
    not lead from "pending" to "completed".  In both the history is the one
    it was: no entry records the change. *)
Theorem status_changed_outside_updateStatus :
  ¬ Transition "cancelled" "completed"
  ∧ (markAsResolved resolveRequest (Return ()) cancelledDb).1
    = Json 200 (with_status "completed" cancelledOnce)
  ∧ (markAsResolved resolveRequest (Return ()) cancelledDb).2 !! "c1"
    = Some (with_status "completed" cancelledOnce)
  ∧ statusHistory (with_status "completed" cancelledOnce)
    = statusHistory cancelledOnce
  ∧ ¬ Transition "pending" "completed"
  ∧ (updateConsultation statusInBody pendingDb).1
    = Json 200 (Some (with_status "completed"
                        (sample "c1" "u1" "pending" false 10)))
  ∧ (updateConsultation statusInBody pendingDb).2 !! "c1"
    = Some (with_status "completed" (sample "c1" "u1" "pending" false 10))
  ∧ statusHistory (with_status "completed"
                     (sample "c1" "u1" "pending" false 10)) = [].
Proof.
  split; [inversion 1|].
  do 3 (split; [vm_compute; reflexivity|]).
  split; [inversion 1|].
  split_and!; vm_compute; reflexivity.
Qed.

(** ** The guards of update and delete *)

(** The owner of a consultation that is no longer pending can neither update
    nor delete it, whatever the role, and nothing is stored. *)
Lemma updateConsultation_owner_not_pending req db consultation :
  findById (params_id req) db = Some consultation →
  user (fields consultation) = uid (req_user req) →
  status (fields consultation) ≠ "pending" →
  updateConsultation req db
  = (Next (ErrorResponse
             "Cannot update consultation after it has been processed" 400),
     db).
Proof.
  intros Hf Hu Hs. unfold updateConsultation, isOwner. rewrite Hf.
  rewrite (bool_decide_eq_true_2 _ Hu), (bool_decide_eq_false_2 _ Hs).
  reflexivity.
Qed.

Lemma deleteConsultation_owner_not_pending req db consultation :
  findById (params_id req) db = Some consultation →
  user (fields consultation) = uid (req_user req) →
  status (fields consultation) ≠ "pending" →
  deleteConsultation req db
  = (Next (ErrorResponse
             "Cannot delete consultation after it has been processed" 400),
     db).
Proof.
  intros Hf Hu Hs. unfold deleteConsultation, isOwner. rewrite Hf.
  rewrite (bool_decide_eq_true_2 _ Hu), (bool_decide_eq_false_2 _ Hs).
  reflexivity.
Qed.

(** While it is pending the owner deletes it. *)
Lemma deleteConsultation_owner_pending req db consultation :
  findById (params_id req) db = Some consultation →
  user (fields consultation) = uid (req_user req) →
  status (fields consultation) = "pending" →
  deleteConsultation req db = (Json 200 (), delete (params_id req) db).
Proof.
  intros Hf Hu Hs. unfold deleteConsultation, isOwner. rewrite Hf.
  rewrite (bool_decide_eq_true_2 _ Hu), (bool_decide_eq_true_2 _ Hs).
  reflexivity.
Qed.

(** An administrator who is not the owner deletes at any status. *)
Lemma deleteConsultation_admin_not_owner req db consultation :
  findById (params_id req) db = Some consultation →
  role (req_user req) = "admin" →
  user (fields consultation) ≠ uid (req_user req) →
  deleteConsultation req db = (Json 200 (), delete (params_id req) db).
Proof.
  intros Hf Hr Hu. unfold deleteConsultation, isOwner, isAdmin. rewrite Hf.
  rewrite (bool_decide_eq_true_2 _ Hr), (bool_decide_eq_false_2 _ Hu).
  reflexivity.
Qed.

Lemma updateConsultation_admin_not_owner req db consultation :
  findById (params_id req) db = Some consultation →
  role (req_user req) = "admin" →
  user (fields consultation) ≠ uid (req_user req) →
  updateConsultation req db
  = match findByIdAndUpdate (params_id req) (body req) db with
    | (Return consultation, db) => (Json 200 consultation, db)
    | (Throw e, db) => (Next e, db)
    end.
Proof.
  intros Hf Hr Hu. unfold updateConsultation, isOwner, isAdmin. rewrite Hf.
  rewrite (bool_decide_eq_true_2 _ Hr), (bool_decide_eq_false_2 _ Hu).
  reflexivity.
Qed.

(** A user who is neither the owner nor an administrator is turned away. *)
Lemma deleteConsultation_stranger req db consultation :
  findById (params_id req) db = Some consultation →
  role (req_user req) ≠ "admin" →
  user (fields consultation) ≠ uid (req_user req) →
  deleteConsultation req db
  = (Next (ErrorResponse "Not authorized to delete this consultation" 401),
     db).
Proof.
  intros Hf Hr Hu. unfold deleteConsultation, isOwner, isAdmin. rewrite Hf.
  rewrite (bool_decide_eq_false_2 _ Hr), (bool_decide_eq_false_2 _ Hu).
  reflexivity.
Qed.

(** Claim C6, at an administrator who owns a confirmed consultation: the
    claim lets an administrator update and delete at any status, and the
    comment on the guard restricts it to regular users, but the guard tests
    ownership alone: both requests are answered with the error of status 400
    and the collection is what it was. *)
Theorem admin_owner_blocked :
  role (req_user adminOwnRequest) = "admin"
  ∧ updateConsultation adminOwnRequest adminOwnedDb
    = (Next (ErrorResponse
               "Cannot update consultation after it has been processed" 400),
       adminOwnedDb)
  ∧ deleteConsultation adminOwnRequest adminOwnedDb
    = (Next (ErrorResponse
               "Cannot delete consultation after it has been processed" 400),
       adminOwnedDb).
Proof. split_and!; reflexivity. Qed.

(** ** Queries *)

Global Instance newestFirst_total : Total newestFirst.
Proof. intros a b. unfold newestFirst. lia. Qed.

Lemma elem_of_sortNewestFirst c l : c ∈ sortNewestFirst l ↔ c ∈ l.
Proof. unfold sortNewestFirst. by rewrite merge_sort_Permutation. Qed.

Lemma Sorted_sortNewestFirst l : Sorted newestFirst (sortNewestFirst l).
Proof. apply Sorted_merge_sort, _. Qed.

Lemma elem_of_find q c db :
  c ∈ find q db ↔ matches q c = true ∧ c ∈ documents db.
Proof. unfold find. apply (list_elem_of_filter (λ c, matches q c = true)). Qed.

Lemma elem_of_documents c db : c ∈ documents db ↔ ∃ id, db !! id = Some c.
Proof.
  unfold documents. rewrite list_elem_of_fmap. split.
  - intros ([id c'] & -> & H). exists id. by apply elem_of_map_to_list.
  - intros [id H]. exists (id, c). split; [done|].
    by apply elem_of_map_to_list.
Qed.

(** The static of the model returns the urgent consultations that are
    pending, and only those, newest first. *)
Lemma static_getUrgentConsultations_exact db :
  Sorted newestFirst (static_getUrgentConsultations db)
  ∧ static_getUrgentConsultations db
    ≡ₚ filter (λ c, isUrgent c = true ∧ status c = "pending") (documents db).
Proof.
  split; [apply Sorted_sortNewestFirst|].
  unfold static_getUrgentConsultations, sortNewestFirst, find.
  rewrite merge_sort_Permutation.
  erewrite list_filter_iff; [done|].
  intros c. unfold matches. cbn.
  rewrite !andb_true_iff, !bool_decide_eq_true. tauto.
Qed.

Lemma static_getUrgentConsultations_elem db c :
  c ∈ static_getUrgentConsultations db
  ↔ (∃ id, db !! id = Some c) ∧ isUrgent c = true ∧ status c = "pending".
Proof.
  unfold static_getUrgentConsultations.
  rewrite elem_of_sortNewestFirst, elem_of_find, elem_of_documents.
  unfold matches. cbn.
  rewrite !andb_true_iff, !bool_decide_eq_true. tauto.
Qed.

(** The handler of the controller does not call the static: its query is
    the first operand of [||], and it returns every urgent consultation,
    newest first. *)
Lemma getUrgentConsultations_exact db :
  ∃ l, getUrgentConsultations db = Json 200 l
       ∧ Sorted newestFirst l
       ∧ l ≡ₚ filter (λ c, isUrgent c = true) (documents db).
Proof.
  eexists. split; [reflexivity|]. split; [apply Sorted_sortNewestFirst|].
  unfold sortNewestFirst, find. rewrite merge_sort_Permutation.
  erewrite list_filter_iff; [done|].
  intros c. unfold matches, js_or. cbn.
  rewrite bool_decide_eq_true. tauto.
Qed.

(** Claim C7, at a collection with an urgent consultation that has been
    confirmed: the static of the model leaves it out, as the claim says, and
    the handler [getUrgentConsultations] returns it. *)
Theorem getUrgentConsultations_returns_confirmed :
  isUrgent urgentConfirmed = true
  ∧ status urgentConfirmed = "confirmed"
  ∧ static_getUrgentConsultations urgentDb = []
  ∧ getUrgentConsultations urgentDb = Json 200 [urgentConfirmed].
Proof. split_and!; vm_compute; reflexivity. Qed.

(** The accumulators of the [$group] stage are the counts of the documents
    folded in. *)
Lemma foldl_groupStep acc l :
  let s := foldl groupStep acc l in
  total s = (total acc + length l)%nat
  ∧ pending s
    = (pending acc + length (filter (λ c, status c = "pending") l))%nat
  ∧ completed s
    = (completed acc + length (filter (λ c, status c = "completed") l))%nat
  ∧ cancelled s
    = (cancelled acc + length (filter (λ c, status c = "cancelled") l))%nat
  ∧ urgent s
    = (urgent acc + length (filter (λ c, isUrgent c = true) l))%nat.
Proof.
  revert acc. induction l as [|c l IH]; intros acc.
  - cbn. split_and!; lia.
  - rewrite !filter_cons. cbn [foldl].
    destruct (IH (groupStep acc c)) as (Ht & Hp & Hc & Hx & Hu).
    cbn zeta. rewrite Ht, Hp, Hc, Hx, Hu.
    cbn [groupStep total pending completed cancelled urgent]. unfold cond.
    repeat case_bool_decide; repeat case_decide; try congruence;
      destruct (isUrgent c); cbn [length]; try congruence;
      split_and!; lia.
Qed.

(** Claim C8, as the code has it: the urgent count of the stats is the
    number of consultations of the collection whose urgency flag is set,
    whatever their status. *)
Theorem getConsultationStats_urgent (db : Collection) :
  ∃ stats recent,
    getConsultationStats db = Json 200 (stats, recent)
    ∧ urgent stats = length (filter (λ c, isUrgent c = true) (documents db)).
Proof.
  unfold getConsultationStats, aggregate_group.
  eexists _, _. split; [reflexivity|].
  destruct (documents db) as [|c l] eqn:E; [done|].
  pose proof (foldl_groupStep noStats (c :: l)) as (_ & _ & _ & _ & Hu).
  rewrite Hu. done.
Qed.

(** Claim C8 as stated fails: with one urgent consultation that has been
    confirmed the urgent count is 1, and no consultation is both urgent and
    pending. *)
Lemma getConsultationStats_urgent_not_pending_only :
  ∃ stats recent,
    getConsultationStats urgentDb = Json 200 (stats, recent)
    ∧ urgent stats = 1%nat
    ∧ length (filter (λ c, isUrgent c = true ∧ status c = "pending")
                (documents urgentDb)) = 0%nat
    ∧ urgent stats
      ≠ length (filter (λ c, isUrgent c = true ∧ status c = "pending")
                  (documents urgentDb)).
Proof.
  eexists _, _. split; [reflexivity|].
  split_and!; vm_compute; [reflexivity..|discriminate].
Qed.

(** The other counts of the stats. *)
Lemma getConsultationStats_counts db :
  ∃ stats recent,
    getConsultationStats db = Json 200 (stats, recent)
    ∧ total stats = length (documents db)
    ∧ pending stats
      = length (filter (λ c, status c = "pending") (documents db))
    ∧ completed stats
      = length (filter (λ c, status c = "completed") (documents db))
    ∧ cancelled stats
      = length (filter (λ c, status c = "cancelled") (documents db)).
Proof.
  unfold getConsultationStats, aggregate_group.
  eexists _, _. split; [reflexivity|].
  destruct (documents db) as [|c l] eqn:E; [done|].
  pose proof (foldl_groupStep noStats (c :: l)) as (Ht & Hp & Hc & Hx & _).
  rewrite Ht, Hp, Hc, Hx. done.
Qed.

(** ** What the operations keep *)

Section Preservation.
Context (R : relation Consultation) `{!Reflexive R} `{!Transitive R}.
Hypothesis R_applyAtomic : ∀ c a, R c (applyAtomic c a).

Lemma preserved_refl db : preserved R db db.
Proof. intros id c H. by exists c. Qed.

Lemma R_foldl_applyAtomic c l : R c (foldl applyAtomic c l).
Proof.
  revert c. induction l as [|a l IH]; intros c; cbn; [done|].
  etrans; [apply (R_applyAtomic c a)|apply IH].
Qed.

Lemma preserved_save this db : preserved R db (save this db).2.
Proof.
  intros id c H. cbn.
  destruct (decide (id = _id (fields this))) as [->|Hne].
  - rewrite lookup_alter_eq, H. cbn. eexists. split; [done|].
    apply R_foldl_applyAtomic.
  - rewrite lookup_alter_ne by done. by exists c.
Qed.

Lemma preserved_updateStatus this to userId reason now db :
  preserved R db (updateStatus this to userId reason now db).2.
Proof.
  unfold updateStatus.
  destruct (canChangeStatus this to) as [[]|]; cbn -[save];
    try apply preserved_refl.
  match goal with |- context [save ?d db] =>
    pose proof (preserved_save d db) as H; destruct (save d db) end.
  exact H.
Qed.

Lemma preserved_updateConsultationStatus req now mail db :
  preserved R db (updateConsultationStatus req now mail db).2.
Proof.
  unfold updateConsultationStatus.
  destruct (findById (params_id req) db) as [d|]; [|apply preserved_refl].
  match goal with |- context [updateStatus ?a ?b ?c ?d ?e ?f] =>
    pose proof (preserved_updateStatus a b c d e f) as H;
    destruct (updateStatus a b c d e f) as [[[] ?] ?] end;
    [destruct mail|]; exact H.
Qed.

Lemma preserved_markAsUrgent req db :
  preserved R db (markAsUrgent req db).2.
Proof.
  unfold markAsUrgent.
  destruct (findById (params_id req) db) as [d|]; [|apply preserved_refl].
  apply preserved_save.
Qed.

Lemma preserved_markAsResolved req mail db :
  preserved R db (markAsResolved req mail db).2.
Proof.
  unfold markAsResolved.
  destruct (findById (params_id req) db) as [d|]; [|apply preserved_refl].
  match goal with |- context [save ?d db] =>
    pose proof (preserved_save d db) as H; destruct (save d db) end.
  destruct mail; exact H.
Qed.

End Preservation.

Global Instance historyKept_refl : Reflexive historyKept.
Proof. intros c. unfold historyKept. done. Qed.

Global Instance historyKept_trans : Transitive historyKept.
Proof. intros a b c. unfold historyKept. by etrans. Qed.

Global Instance ownerKept_refl : Reflexive ownerKept.
Proof. intros c. done. Qed.

Global Instance ownerKept_trans : Transitive ownerKept.
Proof. intros a b c. unfold ownerKept. congruence. Qed.

Lemma historyKept_applyAtomic c a : historyKept c (applyAtomic c a).
Proof.
  destruct a; unfold historyKept; cbn; [done..|]. by apply prefix_app_r.
Qed.

Lemma ownerKept_applyAtomic c a : ownerKept c (applyAtomic c a).
Proof. by destruct a. Qed.

Lemma historyKept_updateStatus this to userId reason now db :
  historyKept (fields this)
    (fields (updateStatus this to userId reason now db).1.2).
Proof.
  unfold updateStatus, historyKept.
  destruct (canChangeStatus this to) as [[]|]; cbn; try done.
  unfold set_status. case_bool_decide; cbn; by apply prefix_app_r.
Qed.

Lemma ownerKept_updateStatus this to userId reason now db :
  ownerKept (fields this)
    (fields (updateStatus this to userId reason now db).1.2).
Proof.
  unfold updateStatus, ownerKept.
  destruct (canChangeStatus this to) as [[]|]; cbn; try done.
  unfold set_status. by case_bool_decide.
Qed.

(** A status update, the urgent flag and [markAsResolved] keep every stored
    history as an initial segment of the history afterwards, in the
    collection and in the document at hand. *)
Theorem history_kept_by_status_handlers (db : Collection) (req : Request)
    (now : Date) (mail : Completion unit) :
  (∀ this to userId reason,
     preserved historyKept db (updateStatus this to userId reason now db).2
     ∧ historyKept (fields this)
         (fields (updateStatus this to userId reason now db).1.2))
  ∧ preserved historyKept db (updateConsultationStatus req now mail db).2
  ∧ preserved historyKept db (markAsUrgent req db).2
  ∧ preserved historyKept db (markAsResolved req mail db).2.
Proof.
  split_and!.
  - intros. split.
    + apply preserved_updateStatus; auto using historyKept_applyAtomic with
        typeclass_instances.
    + apply historyKept_updateStatus.
  - apply preserved_updateConsultationStatus;
      auto using historyKept_applyAtomic with typeclass_instances.
  - apply preserved_markAsUrgent;
      auto using historyKept_applyAtomic with typeclass_instances.
  - apply preserved_markAsResolved;
      auto using historyKept_applyAtomic with typeclass_instances.
Qed.

(** Claim C5, at an update: an administrator sends an empty
    [statusHistory] among the keys of the body, and the update stores it in
    place of the history there was, which no longer is an initial segment of
    the stored history.  The status route only ever pushes onto it. *)
Lemma history_replaced_by_update :
  cancelledDb !! "c1" = Some cancelledOnce
  ∧ statusHistory cancelledOnce
    = [newEntry "cancelled" "admin1" (Some "withdrawn") 50]
  ∧ (updateConsultation historyInBody cancelledDb).1
    = Json 200 (Some (with_statusHistory [] cancelledOnce))
  ∧ (updateConsultation historyInBody cancelledDb).2 !! "c1"
    = Some (with_statusHistory [] cancelledOnce)
  ∧ ¬ historyKept cancelledOnce (with_statusHistory [] cancelledOnce).
Proof.
  split_and!; try (vm_compute; reflexivity).
  intros [k Hk]. discriminate Hk.
Qed.

(** A status update, the urgent flag and [markAsResolved] keep the owner of
    every stored consultation, in the collection and in the document at
    hand. *)
Theorem owner_kept_by_status_handlers (db : Collection) (req : Request)
    (now : Date) (mail : Completion unit) :
  (∀ this to userId reason,
     preserved ownerKept db (updateStatus this to userId reason now db).2
     ∧ ownerKept (fields this)
         (fields (updateStatus this to userId reason now db).1.2))
  ∧ preserved ownerKept db (updateConsultationStatus req now mail db).2
  ∧ preserved ownerKept db (markAsUrgent req db).2
  ∧ preserved ownerKept db (markAsResolved req mail db).2.
Proof.
  split_and!.
  - intros. split.
    + apply preserved_updateStatus; auto using ownerKept_applyAtomic with
        typeclass_instances.
    + apply ownerKept_updateStatus.
  - apply preserved_updateConsultationStatus;
      auto using ownerKept_applyAtomic with typeclass_instances.
  - apply preserved_markAsUrgent;
      auto using ownerKept_applyAtomic with typeclass_instances.
  - apply preserved_markAsResolved;
      auto using ownerKept_applyAtomic with typeclass_instances.
Qed.

(** Claim C9, at an update: the owner of a pending consultation names
    another user under the key [user] of the body, and the update stores
    that user as the owner.  The creation puts the authenticated user over
    whatever the body names; the update does not. *)
Lemma owner_changed_by_update :
  pendingDb !! "c1" = Some (sample "c1" "u1" "pending" false 10)
  ∧ (updateConsultation ownerInBody pendingDb).2 !! "c1"
    = Some (sample "c1" "u2" "pending" false 10)
  ∧ ¬ ownerKept (sample "c1" "u1" "pending" false 10)
        (sample "c1" "u2" "pending" false 10).
Proof.
  split_and!; try (vm_compute; reflexivity).
  unfold ownerKept. cbn. discriminate.
Qed.

(** ** Two status requests in flight *)




(** The two turns of a request, taken one after the other, store what the
    handler [updateConsultationStatus] stores. *)
Lemma turns_of_updateConsultationStatus req now mail db :
  let call :=
    {| call_id := params_id req;
       call_status := default "undefined" (body_status (body req));
       call_userId := uid (req_user req);
       call_reason := body_reason (body req);
       call_now := now |} in
  (turn call (turn call notStarted db).1 (turn call notStarted db).2).2
  = (updateConsultationStatus req now mail db).2.
Proof.
  unfold updateConsultationStatus, turn at 2 3. cbn.
  destruct (findById (params_id req) db) as [d|]; [|reflexivity].
  unfold turn. cbn.
  destruct (updateStatus _ _ _ _ _ _) as [[[] ?] ?]; [destruct mail|];
    reflexivity.
Qed.




Section Race.
Context (db : Collection) (id : ObjectId) (c : Consultation).
Context (userA userB : ObjectId) (reasonA reasonB : option string).
Context (nowA nowB : Date).
Hypothesis stored : db !! id = Some c.
Hypothesis keyed : _id c = id.
Hypothesis is_pending : status c = "pending".







End Race.




(** * Further properties *)

(** ** The life of a consultation under [updateStatus] *)

Lemma canChangeStatus_enum_witness :
  ("confirmed" ∈ statusEnum)
  ∧ (canChangeStatus (fresh (sample "c1" "u1" "confirmed" false 10))
       "completed" = Return true
     ↔ Transition "confirmed" "completed").
Proof.
  assert (He : "confirmed" ∈ statusEnum)
    by (unfold statusEnum; rewrite !elem_of_cons; auto).
  split; [exact He|].
  exact (canChangeStatus_enum (fresh (sample "c1" "u1" "confirmed" false 10))
           "completed" He).
Defined.

Lemma canChangeStatus_true_Transition this to :
  canChangeStatus this to = Return true → Transition (status (fields this)) to.
Proof.
  intros H.
  destruct (decide (status (fields this) ∈ ObjectPrototype)) as [Hp|Hp].
  - rewrite canChangeStatus_inherited in H by done. discriminate.
  - destruct (canChangeStatus_spec this to Hp) as (b & Hc & Hb).
    apply Hb. congruence.
Qed.

(** What one call does, by cases. *)
Lemma updateStatus_cases this to userId reason now db :
  (Transition (status (fields this)) to
   ∧ updateStatus this to userId reason now db
     = (Return (status (fields this), to),
        {| fields := with_statusHistory
                       (statusHistory (fields this)
                          ++ [newEntry to userId reason now])
                       (with_status to (fields this));
           unsaved := [] |},
        alter (λ stored,
                 foldl applyAtomic stored
                   (unsaved this
                      ++ [SetStatus to;
                          PushStatusHistory (newEntry to userId reason now)]))
          (_id (fields this)) db))
  ∨ (¬ Transition (status (fields this)) to
     ∧ ∃ e, updateStatus this to userId reason now db = (Throw e, this, db)).
Proof.
  destruct (canChangeStatus this to) as [[]|e] eqn:E.
  - left. apply canChangeStatus_true_Transition in E. split; [done|].
    by apply updateStatus_allowed_eq.
  - right. split.
    + intros H. rewrite canChangeStatus_allowed in E by done. discriminate.
    + unfold updateStatus. rewrite E. eauto.
  - right. split.
    + intros H. rewrite canChangeStatus_allowed in E by done. discriminate.
    + unfold updateStatus. rewrite E. eauto.
Qed.

(** A call of [updateStatus] that returns has taken a step of the table: it
    returns the pair (old, new), never leaves "cancelled", never leads to
    "pending", and never stays where it was. *)
Theorem updateStatus_only_by_table (this : Document) (to userId : string)
    (reason : option string) (now : Date) (db : Collection)
    (r : string * string) (this' : Document) (db' : Collection) :
  updateStatus this to userId reason now db = (Return r, this', db') →
  r = (status (fields this), to)
  ∧ Transition (status (fields this)) to
  ∧ status (fields this) ≠ "cancelled"
  ∧ to ≠ "pending"
  ∧ to ≠ status (fields this).
Proof.
  intros H.
  destruct (updateStatus_cases this to userId reason now db)
    as [[Ht E]|[_ [e E]]]; rewrite E in H; [|discriminate].
  injection H as <- <- <-.
  split; [done|]. split; [done|].
  destruct Ht; split_and!; congruence.
Qed.

Lemma updateStatus_only_by_table_witness :
  ∃ r this' db',
    updateStatus (fresh (sample "c1" "u1" "pending" false 10)) "confirmed"
      "admin1" None 99 pendingDb = (Return r, this', db')
    ∧ r = ("pending", "confirmed")
    ∧ Transition "pending" "confirmed".
Proof.
  pose proof (updateStatus_allowed_eq
                (fresh (sample "c1" "u1" "pending" false 10)) "confirmed"
                "admin1" None 99 pendingDb pending_confirmed) as E.
  eexists _, _, _. split; [exact E|].
  destruct (updateStatus_only_by_table _ _ _ _ _ _ _ _ _ E) as (Hr & Ht & _).
  split; [exact Hr|exact Ht].
Defined.

Lemma Transition_rank from to :
  Transition from to → (rank to < rank from)%nat.
Proof. destruct 1; vm_compute; lia. Qed.

Lemma accepted_cons {A} (r : Completion A) rs :
  accepted (r :: rs) = ((if returned r then 1 else 0) + accepted rs)%nat.
Proof.
  unfold accepted. rewrite filter_cons.
  destruct r; cbn; case_decide; cbn; congruence.
Qed.

Lemma updateStatusAll_rank requests : ∀ this db,
  (accepted (updateStatusAll this requests db).1.1
   + rank (status (fields (updateStatusAll this requests db).1.2))
   ≤ rank (status (fields this)))%nat.
Proof.
  induction requests as [|q requests IH]; intros this db;
    cbn [updateStatusAll].
  - cbn. lia.
  - destruct (updateStatus_cases this (request_status q) (request_userId q)
                (request_reason q) (request_now q) db)
      as [[Ht E]|[_ [e E]]]; rewrite E.
    + match goal with |- context [updateStatusAll ?d requests ?m] =>
        specialize (IH d m);
        destruct (updateStatusAll d requests m) as [[rs d'] m'] end.
      cbn [fst snd] in *. rewrite accepted_cons. cbn [returned].
      apply Transition_rank in Ht.
      cbn [fields status with_status with_statusHistory] in IH. lia.
    + specialize (IH this db).
      destruct (updateStatusAll this requests db) as [[rs d'] m'].
      cbn [fst snd] in *. rewrite accepted_cons. cbn [returned]. lia.
Qed.

(** However many status updates are asked of a consultation, whatever its
    status, at most three of them are accepted. *)
Theorem updateStatusAll_at_most_three (this : Document)
    (requests : list StatusRequest) (db : Collection) :
  (accepted (updateStatusAll this requests db).1.1 ≤ 3)%nat.
Proof.
  pose proof (updateStatusAll_rank requests this db) as H.
  assert (rank (status (fields this)) ≤ 3)%nat; [|lia].
  unfold rank. repeat case_decide; lia.
Qed.

Lemma chain_snoc from l s :
  chain from (l ++ [s])
  ↔ chain from l ∧ ∃ prev, last (from :: l) = Some prev ∧ Transition prev s.
Proof.
  revert from. induction l as [|x l IH]; intros from.
  - cbn. split.
    + intros [H _]. split; [done|]. eauto.
    + intros [_ (prev & [= <-] & H)]. done.
  - cbn [app chain]. rewrite IH. rewrite (last_cons_cons from x l).
    tauto.
Qed.

Lemma chain_length from l : chain from l → (length l ≤ rank from)%nat.
Proof.
  revert from. induction l as [|x l IH]; intros from; cbn.
  - lia.
  - intros [Ht Hc]. apply IH in Hc. apply Transition_rank in Ht. lia.
Qed.

Lemma trail_updateStatus this to userId reason now db :
  trail (fields this) →
  trail (fields (updateStatus this to userId reason now db).1.2).
Proof.
  intros [Hc Hl].
  destruct (updateStatus_cases this to userId reason now db)
    as [[Ht E]|[_ [e E]]]; rewrite E; cbn [fst snd fields]; [|done].
  unfold trail. cbn [statusHistory status with_statusHistory with_status].
  rewrite fmap_app. cbn [fmap list_fmap newEntry entry_status].
  split.
  - apply chain_snoc. split; [done|]. eauto.
  - rewrite app_comm_cons. apply last_snoc.
Qed.

(** A consultation whose history tells how it came from "pending" to its
    status keeps such a history through any run of status updates, and that
    history never has more than three entries. *)
Theorem trail_kept (this : Document) (requests : list StatusRequest)
    (db : Collection) :
  trail (fields this) →
  trail (fields (updateStatusAll this requests db).1.2)
  ∧ (length (statusHistory (fields (updateStatusAll this requests db).1.2))
     ≤ 3)%nat.
Proof.
  intros H.
  assert (Ht : trail (fields (updateStatusAll this requests db).1.2)).
  { revert this db H.
    induction requests as [|q requests IH]; intros this db H;
      cbn [updateStatusAll]; [done|].
    pose proof (trail_updateStatus this (request_status q) (request_userId q)
                  (request_reason q) (request_now q) db H) as H1.
    destruct (updateStatus _ _ _ _ _ _) as [[r d] m]. cbn [fst snd] in H1.
    specialize (IH d m H1).
    destruct (updateStatusAll d requests m) as [[rs d'] m']. done. }
  split; [done|].
  destruct Ht as [Hc _]. apply chain_length in Hc.
  rewrite length_fmap in Hc. exact Hc.
Qed.

Lemma trail_kept_witness :
  trail (sample "c1" "u1" "pending" false 10)
  ∧ trail (fields (updateStatusAll
                     (fresh (sample "c1" "u1" "pending" false 10))
                     lifecycle pendingDb).1.2).
Proof.
  assert (H : trail (fields (fresh (sample "c1" "u1" "pending" false 10))))
    by (split; [exact I|reflexivity]).
  split; [exact H|].
  exact (proj1 (trail_kept _ lifecycle pendingDb H)).
Defined.



(** ** The handlers of one consultation *)






(** For a well-formed id under which nothing is stored, every handler that
    takes an id answers "Consultation not found" with status 404, and those
    that write leave the collection as it is. *)
Theorem not_found_everywhere (req : Request) (now : Date)
    (mail : Completion unit) (users : gset ObjectId) (db : Collection) :
  isObjectIdFormat (params_id req) = true →
  db !! params_id req = None →
  getConsultation req users db
  = Next (ErrorResponse "Consultation not found" 404)
  ∧ updateConsultation req db
    = (Next (ErrorResponse "Consultation not found" 404), db)
  ∧ deleteConsultation req db
    = (Next (ErrorResponse "Consultation not found" 404), db)
  ∧ updateConsultationStatus req now mail db
    = (Next (ErrorResponse "Consultation not found" 404), db)
  ∧ getStatusHistory req db
    = Next (ErrorResponse "Consultation not found" 404)
  ∧ markAsUrgent req db
    = (Next (ErrorResponse "Consultation not found" 404), db)
  ∧ markAsResolved req mail db
    = (Next (ErrorResponse "Consultation not found" 404), db).
Proof.
  intros Hf H.
  unfold getConsultation, updateConsultation, deleteConsultation,
    updateConsultationStatus, getStatusHistory, markAsUrgent, markAsResolved,
    findById.
  rewrite Hf, H. cbn. done.
Qed.

Lemma not_found_everywhere_witness :
  isObjectIdFormat (params_id absentRequest) = true
  ∧ hexDb !! params_id absentRequest = None
  ∧ deleteConsultation absentRequest hexDb
    = (Next (ErrorResponse "Consultation not found" 404), hexDb).
Proof.
  assert (Hf : isObjectIdFormat (params_id absentRequest) = true)
    by (vm_compute; reflexivity).
  assert (H : hexDb !! params_id absentRequest = None)
    by (vm_compute; reflexivity).
  split; [exact Hf|]. split; [exact H|].
  destruct (not_found_everywhere absentRequest 0 (Return ()) ∅ hexDb Hf H)
    as (_ & _ & Hd & _).
  exact Hd.
Defined.

(** The two tests of the handlers let a request through exactly when it
    [mayWrite]. *)
Lemma guards_pass req c :
  mayWrite req c
  ↔ (negb (isOwner req (fresh c)) && negb (isAdmin req) = false
     ∧ isOwner req (fresh c) && negb (bool_decide (status c = "pending"))
       = false).
Proof.
  unfold mayWrite, isOwner, isAdmin. cbn.
  repeat case_bool_decide; cbn; intuition congruence.
Qed.

(** A delete request on a stored consultation removes it exactly when the
    requester is its owner and it is pending, or is an administrator who is
    not its owner; every other request is answered with an error of status
    401 or 400 and removes nothing. *)
Theorem deleteConsultation_guard (req : Request) (db : Collection)
    (c : Consultation) :
  db !! params_id req = Some c →
  (mayWrite req c →
   deleteConsultation req db = (Json 200 (), delete (params_id req) db))
  ∧ (¬ mayWrite req c →
     ∃ message code,
       deleteConsultation req db = (Next (ErrorResponse message code), db)
       ∧ (code = 401%nat ∨ code = 400%nat)).
Proof.
  intros Hc. unfold deleteConsultation, findById. rewrite Hc.
  cbn [fmap option_fmap option_map].
  change {| fields := c; unsaved := [] |} with (fresh c).
  pose proof (guards_pass req c) as Hg.
  destruct (negb (isOwner req (fresh c)) && negb (isAdmin req));
    [|destruct (isOwner req (fresh c)
                && negb (bool_decide (status (fields (fresh c)) = "pending")))
        eqn:E; cbn in E; rewrite E in Hg].
  - split; [intros H; apply Hg in H; destruct H; discriminate|].
    intros _. eexists _, _. split; [reflexivity|]. by left.
  - split; [intros H; apply Hg in H; destruct H; discriminate|].
    intros _. eexists _, _. split; [reflexivity|]. by right.
  - split; [done|]. intros H. exfalso. apply H, Hg. done.
Qed.

(** An update request on a stored consultation is turned away by the
    handler's own tests exactly when the requester may not write: a
    requester who is neither the owner nor an administrator gets the error of
    status 401, the owner of a consultation that is no longer pending the
    error of status 400, and in both cases nothing is stored, whatever the
    body; a requester who may write gets neither. *)
Theorem updateConsultation_guard (req : Request) (db : Collection)
    (c : Consultation) :
  db !! params_id req = Some c →
  (¬ mayWrite req c →
   (user c ≠ uid (req_user req)
    ∧ role (req_user req) ≠ "admin"
    ∧ updateConsultation req db
      = (Next (ErrorResponse "Not authorized to update this consultation"
                 401), db))
   ∨ (user c = uid (req_user req)
      ∧ status c ≠ "pending"
      ∧ updateConsultation req db
        = (Next (ErrorResponse
                   "Cannot update consultation after it has been processed"
                   400), db)))
  ∧ (mayWrite req c →
     ∀ message code,
       (updateConsultation req db).1 ≠ Next (ErrorResponse message code)).
Proof.
  intros Hc. unfold updateConsultation, findById. rewrite Hc.
  cbn [fmap option_fmap option_map].
  change {| fields := c; unsaved := [] |} with (fresh c).
  pose proof (guards_pass req c) as Hg.
  unfold mayWrite, isOwner, isAdmin in *. cbn [fields fresh] in *.
  repeat case_bool_decide; cbn [negb andb] in *.
  all: split; [intros Hn|intros Hm].
  all: try (exfalso; apply Hn, Hg; done).
  all: try (apply Hg in Hm; destruct Hm; discriminate).
  all: try (left; done).
  all: try (right; done).
  all: intros message code; unfold findByIdAndUpdate;
    repeat case_match; cbn; congruence.
Qed.

Lemma updateConsultation_guard_witness :
  cancelledDb !! "c1" = Some cancelledOnce
  ∧ ¬ mayWrite lateEdit cancelledOnce
  ∧ updateConsultation lateEdit cancelledDb
    = (Next (ErrorResponse
               "Cannot update consultation after it has been processed" 400),
       cancelledDb).
Proof.
  assert (Hc : cancelledDb !! params_id lateEdit = Some cancelledOnce)
    by (vm_compute; reflexivity).
  assert (Hm : ¬ mayWrite lateEdit cancelledOnce)
    by (intros [[_ H]|[H _]]; [discriminate H|apply H; reflexivity]).
  split; [exact Hc|]. split; [exact Hm|].
  destruct (proj1 (updateConsultation_guard lateEdit cancelledDb _ Hc) Hm)
    as [(Hu & _)|(_ & _ & H)].
  - exfalso. apply Hu. reflexivity.
  - exact H.
Defined.

Lemma deleteConsultation_guard_witness :
  pendingDb !! "c1" = Some (sample "c1" "u1" "pending" false 10)
  ∧ ¬ mayWrite {| params_id := "c1"; req_user := user2; body := emptyBody |}
        (sample "c1" "u1" "pending" false 10)
  ∧ ∃ message code,
      deleteConsultation
        {| params_id := "c1"; req_user := user2; body := emptyBody |}
        pendingDb
      = (Next (ErrorResponse message code), pendingDb)
      ∧ (code = 401%nat ∨ code = 400%nat).
Proof.
  assert (Hc : pendingDb !! "c1" = Some (sample "c1" "u1" "pending" false 10))
    by (vm_compute; reflexivity).
  assert (Hm : ¬ mayWrite
                 {| params_id := "c1"; req_user := user2; body := emptyBody |}
                 (sample "c1" "u1" "pending" false 10))
    by (intros [[H _]|[_ H]]; discriminate H).
  split; [exact Hc|]. split; [exact Hm|].
  exact (proj2 (deleteConsultation_guard
                  {| params_id := "c1"; req_user := user2; body := emptyBody |}
                  pendingDb _ Hc) Hm).
Defined.

(** A consultation is sent to a reader exactly when the id has the format
    of an ObjectId, a consultation is stored under it, its owner exists, and
    the reader is that owner or an administrator. *)
Theorem getConsultation_access (req : Request) (users : gset ObjectId)
    (db : Collection) (code : nat) (c : Consultation) :
  getConsultation req users db = Json code c
  ↔ code = 200%nat
    ∧ isObjectIdFormat (params_id req) = true
    ∧ db !! params_id req = Some c
    ∧ user c ∈ users
    ∧ (user c = uid (req_user req) ∨ role (req_user req) = "admin").
Proof.
  unfold getConsultation, findById, isOwner, isAdmin.
  destruct (isObjectIdFormat (params_id req)); cbn [negb];
    [|split; [discriminate|intros (_ & ? & _); discriminate]].
  destruct (db !! params_id req) as [c0|]; cbn;
    [|split; [discriminate|intros (_ & _ & ? & _); discriminate]].
  repeat case_bool_decide; cbn; split;
    try discriminate; try (intros [= <- <-]); try (intros (-> & _ & [= <-] & ? & [?|?]));
    try done; try (split_and!; auto; fail).
Qed.

Lemma getConsultation_access_witness :
  getConsultation (readRequest user1) {[ "u1" ]} hexDb
  = Json 200 (sample hexId "u1" "confirmed" false 10)
  ∧ ¬ (∃ code c,
         getConsultation (readRequest user2) {[ "u1" ]} hexDb = Json code c).
Proof.
  split.
  - apply (getConsultation_access (readRequest user1) {[ "u1" ]} hexDb).
    split_and!;
      first [ by left | by apply elem_of_singleton
            | vm_compute; reflexivity ].
  - intros (code & c & H).
    apply (getConsultation_access (readRequest user2) {[ "u1" ]} hexDb) in H.
    destruct H as (_ & _ & Hc & _ & [Hu|Hr]).
    + vm_compute in Hc. injection Hc as <-. discriminate Hu.
    + discriminate Hr.
Defined.

(** ** Creation *)

(** A creation that succeeds answers 201 with a consultation whose owner is
    the authenticated user, whatever the body names, stored under its own
    [_id]; one that fails stores nothing. *)
Theorem createConsultation_owner (req : Request) (newId : ObjectId)
    (now : Date) (db : Collection) :
  match createConsultation req newId now db with
  | (Json code c, db') =>
      code = 201%nat
      ∧ user c = uid (req_user req)
      ∧ db' !! _id c = Some c
  | (Next e, db') => db' = db
  end.
Proof.
  unfold createConsultation, create.
  destruct (presentValidator "user" _ ++ _) as [|path paths];
    cbn [fst snd]; [|done].
  split_and!; try done. cbn. apply lookup_insert_eq.
Qed.

(** The request names "u2" as owner in its body; the consultation created
    belongs to the authenticated "u1". *)
Lemma createConsultation_owner_witness :
  body_user (body createRequest) = Some "u2"
  ∧ ∃ c db',
      createConsultation createRequest "c9" 40 pendingDb = (Json 201 c, db')
      ∧ user c = "u1"
      ∧ db' !! _id c = Some c.
Proof.
  split; [reflexivity|].
  pose proof (createConsultation_owner createRequest "c9" 40 pendingDb) as H.
  destruct (createConsultation createRequest "c9" 40 pendingDb)
    as [[code c|e] db'] eqn:E.
  - destruct H as (-> & Hu & Hs). eexists _, _.
    split; [reflexivity|]. split; [exact Hu|exact Hs].
  - vm_compute in E. discriminate E.
Defined.

Lemma Transition_to_enum from to : Transition from to → to ∈ statusEnum.
Proof.
  intros H. unfold statusEnum. rewrite !elem_of_cons.
  destruct H; intuition congruence.
Qed.

(** ** Invariants of the collection *)

Lemma map_Forall_alter_2 {A} (P : ObjectId → A → Prop) (f : A → A) id
    (m : gmap ObjectId A) :
  (∀ x, m !! id = Some x → P id x → P id (f x)) →
  map_Forall P m → map_Forall P (alter f id m).
Proof.
  intros Hf Hm j y. destruct (decide (j = id)) as [->|Hne].
  - rewrite lookup_alter_eq. destruct (m !! id) as [x|] eqn:E; [|done].
    cbn. intros [= <-]. apply Hf; [done|]. by apply Hm.
  - rewrite lookup_alter_ne by done. apply Hm.
Qed.

Lemma wellKeyed_applyAtomics c l : _id (foldl applyAtomic c l) = _id c.
Proof.
  revert c. induction l as [|a l IH]; intros c; cbn; [done|].
  rewrite IH. by destruct a.
Qed.

(** Every handler that writes keeps each document under its own [_id]. *)
Theorem wellKeyed_kept (req : Request) (now : Date) (mail : Completion unit)
    (newId : ObjectId) (db : Collection) :
  wellKeyed db →
  wellKeyed (createConsultation req newId now db).2
  ∧ wellKeyed (updateConsultation req db).2
  ∧ wellKeyed (deleteConsultation req db).2
  ∧ wellKeyed (updateConsultationStatus req now mail db).2
  ∧ wellKeyed (markAsUrgent req db).2
  ∧ wellKeyed (markAsResolved req mail db).2.
Proof.
  intros H. unfold wellKeyed in *. split_and!.
  - unfold createConsultation, create.
    destruct (presentValidator "user" _ ++ _); cbn; [|done].
    by apply map_Forall_insert_2.
  - unfold updateConsultation, findByIdAndUpdate, findById.
    destruct (db !! params_id req) as [c|] eqn:E; cbn; [|done].
    repeat case_match; simplify_eq; cbn; try done.
    apply map_Forall_insert_2; [|done]. cbn. by apply H in E.
  - unfold deleteConsultation, findById, findByIdAndDelete.
    destruct (db !! params_id req) as [c|] eqn:E; cbn; [|done].
    repeat case_match; cbn; try done. by apply map_Forall_delete.
  - unfold updateConsultationStatus, updateStatus, findById.
    destruct (db !! params_id req) as [c|] eqn:E; cbn; [|done].
    destruct (canChangeStatus _ _) as [[]|]; cbn; try done.
    destruct mail; cbn; (apply map_Forall_alter_2; [|done]);
      intros x _ <-; apply wellKeyed_applyAtomics.
  - unfold markAsUrgent, findById.
    destruct (db !! params_id req) as [c|] eqn:E; cbn; [|done].
    apply map_Forall_alter_2; [|done].
    intros x _ <-; apply wellKeyed_applyAtomics.
  - unfold markAsResolved, findById.
    destruct (db !! params_id req) as [c|] eqn:E; cbn; [|done].
    destruct mail; cbn; (apply map_Forall_alter_2; [|done]);
      intros x _ <-; apply wellKeyed_applyAtomics.
Qed.

(** The status route, the urgent flag, [markAsResolved] and the deletion
    store no status outside the enum: when every stored status and every
    status of a stored history entry is one of the four before, so it is
    afterwards. *)
Theorem statusesValid_kept (req : Request) (now : Date)
    (mail : Completion unit) (db : Collection) :
  statusesValid db →
  statusesValid (updateConsultationStatus req now mail db).2
  ∧ statusesValid (markAsUrgent req db).2
  ∧ statusesValid (markAsResolved req mail db).2
  ∧ statusesValid (deleteConsultation req db).2.
Proof.
  intros H. unfold statusesValid in *. split_and!.
  - unfold updateConsultationStatus, updateStatus, findById.
    destruct (db !! params_id req) as [c|] eqn:E; cbn; [|done].
    destruct (canChangeStatus _ _) as [[]|] eqn:Ec; cbn; try done.
    apply canChangeStatus_true_Transition, Transition_to_enum in Ec.
    unfold set_status. cbn.
    destruct mail; case_bool_decide; cbn;
      (apply map_Forall_alter_2; [|done]); intros x _ [Hx1 Hx2]; cbn;
      (split; [done|]);
      (apply Forall_app; split; [done|]; by apply Forall_singleton).
  - unfold markAsUrgent, findById, set_isUrgent.
    destruct (db !! params_id req) as [c|] eqn:E; cbn; [|done].
    case_bool_decide; cbn; (apply map_Forall_alter_2; [|done]);
      intros x _ Hx; done.
  - unfold markAsResolved, findById, set_status.
    destruct (db !! params_id req) as [c|] eqn:E; cbn; [|done].
    destruct mail; case_bool_decide; cbn;
      (apply map_Forall_alter_2; [|done]); intros x _ [Hx1 Hx2]; cbn;
      try done; (split; [|done]);
      unfold statusEnum; rewrite !elem_of_cons; auto.
  - unfold deleteConsultation, findById, findByIdAndDelete.
    destruct (db !! params_id req) as [c|] eqn:E; cbn; [|done].
    repeat case_match; cbn; try done. by apply map_Forall_delete.
Qed.

(** ** The urgent flag, the stats and the lists *)




Global Instance newestFirst_trans : Transitive newestFirst.
Proof. intros a b c. unfold newestFirst. lia. Qed.

Lemma find_anyDocument db : find anyDocument db = documents db.
Proof.
  unfold find. induction (documents db) as [|c l IH]; [done|].
  rewrite filter_cons, IH. by cbn.
Qed.

Lemma status_partition (l : list Consultation) :
  length l
  = (length (filter (λ c, status c = "pending") l)
     + length (filter (λ c, status c = "completed") l)
     + length (filter (λ c, status c = "cancelled") l)
     + length (filter (λ c, status c ∉ ["pending"; "completed"; "cancelled"])
                 l))%nat.
Proof.
  induction l as [|c l IH]; [done|].
  rewrite !filter_cons. cbn [length]. rewrite IH.
  repeat case_decide; cbn [length]; try lia; exfalso;
    repeat match goal with
    | H : _ ∈ _ |- _ => rewrite !elem_of_cons, elem_of_nil in H
    | H : _ ∉ _ |- _ => rewrite !elem_of_cons, elem_of_nil in H
    end; intuition congruence.
Qed.

(** The counts of the stats are the numbers of stored consultations, of
    pending, of completed and of cancelled ones, and together with the
    consultations of every other status they add up to the total. *)
Theorem getConsultationStats_partition (db : Collection) :
  ∃ stats recent,
    getConsultationStats db = Json 200 (stats, recent)
    ∧ total stats = length (documents db)
    ∧ pending stats
      = length (filter (λ c, status c = "pending") (documents db))
    ∧ completed stats
      = length (filter (λ c, status c = "completed") (documents db))
    ∧ cancelled stats
      = length (filter (λ c, status c = "cancelled") (documents db))
    ∧ total stats
      = (pending stats + completed stats + cancelled stats
         + length (filter
                     (λ c, status c ∉ ["pending"; "completed"; "cancelled"])
                     (documents db)))%nat.
Proof.
  destruct (getConsultationStats_counts db)
    as (stats & recent & E & Ht & Hp & Hc & Hx).
  exists stats, recent. split_and!; try done.
  rewrite Ht, Hp, Hc, Hx. apply status_partition.
Qed.

Lemma listed q db :
  _id <$> sortNewestFirst (find q db)
  ≡ₚ _id <$> filter (λ c, matches q c = true) (documents db)
  ∧ newestFirstDates (createdAt <$> sortNewestFirst (find q db)).
Proof.
  split.
  - unfold sortNewestFirst, find. by rewrite merge_sort_Permutation.
  - unfold newestFirstDates.
    apply (Sorted_fmap _ newestFirst); [done|apply Sorted_sortNewestFirst].
Qed.

(** The preview of the stats has five consultations, or all of them when
    there are fewer, newest first, and none that is left out is newer than
    one that is shown. *)
Theorem getConsultationStats_recent (db : Collection) :
  ∃ stats recent rest,
    getConsultationStats db = Json 200 (stats, recent)
    ∧ length recent = (length (documents db) `min` 5)%nat
    ∧ newestFirstDates (createdAt <$> recent)
    ∧ _id <$> (recent ++ rest) ≡ₚ _id <$> documents db
    ∧ ∀ c c', c ∈ recent → c' ∈ rest → createdAt c' ≤ createdAt c.
Proof.
  unfold getConsultationStats. rewrite find_anyDocument.
  eexists _, _, (drop 5 (sortNewestFirst (documents db))).
  split; [reflexivity|].
  pose proof (StronglySorted_merge_sort newestFirst (documents db)) as Hs.
  fold (sortNewestFirst (documents db)) in Hs.
  assert (Hp : sortNewestFirst (documents db) ≡ₚ documents db)
    by apply merge_sort_Permutation.
  split_and!.
  - rewrite length_take, Hp. lia.
  - unfold newestFirstDates.
    apply (Sorted_fmap _ newestFirst); [done|]. apply StronglySorted_Sorted.
    rewrite <- (take_drop 5 (sortNewestFirst (documents db))) in Hs.
    by apply StronglySorted_app_1_l in Hs.
  - by rewrite take_drop, Hp.
  - intros c c' Hc Hc'.
    rewrite <- (take_drop 5 (sortNewestFirst (documents db))) in Hs.
    exact (StronglySorted_app_1_elem_of _ _ _ _ _ Hs Hc Hc').
Qed.

(** The pending list of the controller has the pending consultations and
    only those, newest first, and the static of the model lists the same
    ids. *)
Theorem pending_lists (db : Collection) :
  ∃ l, getPendingConsultations db = Json 200 l
    ∧ _id <$> l ≡ₚ _id <$> filter (λ c, status c = "pending") (documents db)
    ∧ newestFirstDates (createdAt <$> l)
    ∧ (∀ c, c ∈ l → status c = "pending")
    ∧ _id <$> static_getPendingConsultations db ≡ₚ _id <$> l
    ∧ newestFirstDates (createdAt <$> static_getPendingConsultations db).
Proof.
  eexists. split; [reflexivity|].
  match goal with |- context [find ?q db] =>
    destruct (listed q db) as [Hp Hs] end.
  assert (Hf : ∀ c, matches {| filter_user := None;
                               filter_status := Some "pending";
                               filter_isUrgent := None |} c = true
                    ↔ status c = "pending").
  { intros c. unfold matches. cbn.
    rewrite ?andb_true_iff, ?bool_decide_eq_true. tauto. }
  split_and!; try done.
  - rewrite Hp. by erewrite list_filter_iff.
  - intros c Hc. apply elem_of_sortNewestFirst, elem_of_find in Hc.
    by apply Hf, Hc.
Qed.

(** The list of a user has the consultations that user owns and only
    those, newest first. *)
Theorem user_lists (req : Request) (db : Collection) :
  ∃ l, getUserConsultations req db = Json 200 l
    ∧ _id <$> l
      ≡ₚ _id <$> filter (λ c, user c = uid (req_user req)) (documents db)
    ∧ newestFirstDates (createdAt <$> l).
Proof.
  eexists. split; [reflexivity|].
  unfold static_getUserConsultations.
  match goal with |- context [find ?q db] =>
    destruct (listed q db) as [Hp Hs] end.
  split; [|done].
  rewrite Hp. erewrite list_filter_iff; [done|].
  intros c. unfold matches. cbn.
  rewrite ?andb_true_iff, ?bool_decide_eq_true. tauto.
Qed.

(** A status request leaves every other consultation as it is, and of the
    consultation it names it changes nothing but the status and the
    history. *)
Theorem updateConsultationStatus_frame (req : Request) (now : Date)
    (mail : Completion unit) (db : Collection) :
  wellKeyed db →
  ∀ id c, db !! id = Some c →
    ∃ c', (updateConsultationStatus req now mail db).2 !! id = Some c'
      ∧ (id ≠ params_id req → c' = c)
      ∧ _id c' = _id c ∧ user c' = user c ∧ service c' = service c
      ∧ projectType c' = projectType c ∧ description c' = description c
      ∧ location c' = location c ∧ preferredDate c' = preferredDate c
      ∧ isUrgent c' = isUrgent c ∧ createdAt c' = createdAt c.
Proof.
  intros Hk id c Hc. unfold updateConsultationStatus, findById.
  destruct (db !! params_id req) as [c0|] eqn:E0;
    cbn [fmap option_fmap option_map]; [|by exists c].
  pose proof (Hk _ _ E0) as Hid. cbn in Hid.
  destruct (updateStatus_cases {| fields := c0; unsaved := [] |}
              (default "undefined" (body_status (body req)))
              (uid (req_user req)) (body_reason (body req)) now db)
    as [[Ht E]|[_ [e E]]]; rewrite E; cbn [fields unsaved app _id].
  - destruct mail; cbn [snd]; rewrite Hid;
      (destruct (decide (id = params_id req)) as [->|Hne];
       [rewrite lookup_alter_eq, Hc|rewrite lookup_alter_ne, Hc by done]);
      eexists; (split; [reflexivity|]); split_and!; done.
  - by exists c.
Qed.

(** ** The race, once more *)

Section StaleHistory.
Context (db : Collection) (id : ObjectId) (c : Consultation).
Context (userA userB : ObjectId) (reasonA reasonB : option string).
Context (nowA nowB : Date).
Hypothesis stored : db !! id = Some c.
Hypothesis keyed : _id c = id.
Hypothesis is_pending : status c = "pending".

End StaleHistory.


Lemma wellKeyed_kept_witness :
  wellKeyed pendingDb
  ∧ wellKeyed (updateConsultation ownerInBody pendingDb).2.
Proof.
  assert (H : wellKeyed pendingDb)
    by (apply map_Forall_singleton; reflexivity).
  split; [exact H|].
  exact (proj1 (proj2 (wellKeyed_kept ownerInBody 0 (Return ()) "c9"
                         pendingDb H))).
Defined.

Lemma statusesValid_kept_witness :
  statusesValid pendingDb
  ∧ statusesValid (updateConsultationStatus
                     (statusRequest "c1" "confirmed") 99 (Return ())
                     pendingDb).2.
Proof.
  assert (H : statusesValid pendingDb).
  { apply map_Forall_singleton. split; [apply list_elem_of_here|].
    apply Forall_nil_2. }
  split; [exact H|].
  exact (proj1 (statusesValid_kept (statusRequest "c1" "confirmed") 99
                  (Return ()) pendingDb H)).
Defined.


Lemma updateConsultationStatus_frame_witness :
  wellKeyed urgentDb
  ∧ (updateConsultationStatus (statusRequest "c1" "confirmed") 99
       (Return ()) urgentDb).2 !! "c2"
    = Some urgentConfirmed.
Proof.
  assert (H : wellKeyed urgentDb).
  { apply map_Forall_insert_2; [reflexivity|].
    apply map_Forall_insert_2; [reflexivity|]. apply map_Forall_empty. }
  split; [exact H|].
  destruct (updateConsultationStatus_frame (statusRequest "c1" "confirmed")
              99 (Return ()) urgentDb H "c2" urgentConfirmed)
    as (c' & Hc & He & _).
  - vm_compute. reflexivity.
  - etrans; [exact Hc|]. f_equal. apply He. discriminate.
Defined.

